(** * Cafe ordering backend: order lifecycle, billing, OTP sessions, daily report

    Shallow embedding of the Express server (server/index.js): the phone
    normaliser, the in-memory order / bill / OTP stores and the request
    handlers that read and write them; of the two messaging modules
    (server/whatsappService.js, server/smsService.js); and of the part of the
    kitchen dashboard that drives the server (sorting of the orders, action
    buttons, bill generation).  The properties stated in the specification
    follow, then further properties read off the code.

    Conventions of the embedding.
    - A handler is a function from the request body and the store to a reply
      and the store after the call.  [Date.now()], the random draw of
      [Math.random()] and the outcome of an outgoing [fetch] are inputs.
    - The store is the in-memory one ([orders], [bills], [otps]); the optional
      MongoDB mirror ([useMongo = false]) is not modelled.
    - JavaScript strings are [string]; one [ascii] stands for one code unit.
    - Amounts and timestamps are integers ([Z]); their sums and products are
      exact, as they are in the engine below 2^53.  Where the code leaves the
      integers it is followed on binary64 (module [Float64]):
      [Math.round(subtotal * 0.05)] rounds the product of two doubles, and
      [parseInt] returns the double nearest to the digits it reads.  The
      average of the report is kept as a rational ([Q]). *)

From Stdlib Require Import ZArith QArith Lia Ascii String.
From Stdlib Require Floats.
From stdpp Require Import base option list gmap strings pretty sorting.

Local Open Scope Z_scope.

(** ** JavaScript primitives used by the server *)

Module Js.

(** [x || d] on an optional string: [undefined], [null] and [""] are falsy. *)
Definition strOr (x : option string) (d : string) : string :=
  match x with
  | Some s => if decide (s = "") then d else s
  | None => d
  end.

(** [x || d] on an optional number: [undefined] and [0] are falsy. *)
Definition numOr (x : option Z) (d : Z) : Z :=
  match x with
  | Some n => if decide (n = 0) then d else n
  | None => d
  end.

(** [x || null] on an optional number. *)
Definition numOrNull (x : option Z) : option Z :=
  match x with
  | Some n => if decide (n = 0) then None else Some n
  | None => None
  end.

(** White space of [String.prototype.trim] among the code units below 256:
    TAB, LF, VT, FF, CR, SP and NBSP. *)
Definition isWhiteSpace (c : ascii) : bool :=
  match c with
  | "009" | "010" | "011" | "012" | "013" | " " | "160" => true
  | _ => false
  end%char.

Fixpoint trimStart (s : string) : string :=
  match s with
  | EmptyString => EmptyString
  | String c r => if isWhiteSpace c then trimStart r else s
  end.

Fixpoint trimEnd (s : string) : string :=
  match s with
  | EmptyString => EmptyString
  | String c r =>
      match trimEnd r with
      | EmptyString => if isWhiteSpace c then EmptyString else String c EmptyString
      | r' => String c r'
      end
  end.

Definition trim (s : string) : string := trimEnd (trimStart s).

(** [s.startsWith(p)] *)
Fixpoint startsWith (s p : string) {struct p} : bool :=
  match p, s with
  | EmptyString, _ => true
  | String a p', String b s' => if decide (a = b) then startsWith s' p' else false
  | String _ _, EmptyString => false
  end.

(** [s.substring(n)] *)
Fixpoint substringFrom (n : nat) (s : string) : string :=
  match n, s with
  | O, _ => s
  | S n', String _ r => substringFrom n' r
  | S _, EmptyString => EmptyString
  end.

(** [s.replace(/[^...]/g, '')]: the characters of the class [keep] stay. *)
Fixpoint removeNot (keep : ascii -> bool) (s : string) : string :=
  match s with
  | EmptyString => EmptyString
  | String c r => if keep c then String c (removeNot keep r) else removeNot keep r
  end.

(** [s.replace(/^c+/, '')] *)
Fixpoint stripLeading (c : ascii) (s : string) : string :=
  match s with
  | EmptyString => EmptyString
  | String a r => if decide (a = c) then stripLeading c r else s
  end.

Definition isDigit (c : ascii) : bool :=
  match c with
  | "0" | "1" | "2" | "3" | "4" | "5" | "6" | "7" | "8" | "9" => true
  | _ => false
  end%char.

(** A value of a JSON body that the code passes to [String(...)]. *)
Inductive value : Type :=
| Undefined
| Str (s : string)
| Num (n : Z).

Definition truthy (v : value) : bool :=
  match v with
  | Undefined => false
  | Str s => if decide (s = "") then false else true
  | Num n => if decide (n = 0) then false else true
  end.

Definition toString (v : value) : string :=
  match v with
  | Undefined => "undefined"
  | Str s => s
  | Num n => pretty n
  end.

(** [Math.round] of the exact quotient [num / den] with [0 < den]: the
    nearest integer, a tie going to the larger one. *)
Definition roundDiv (num den : Z) : Z := (2 * num + den) / (2 * den).

End Js.

(** ** Numbers that leave the integers

    A JavaScript number is a double.  The integers of the model are
    converted where the code multiplies by a rate or compares with the result
    of [parseInt]; the arithmetic is that of Rocq's binary64 numbers. *)

Module Float64.
Import Stdlib.Floats.Floats.

(** The double nearest to the integer [n], a tie going to the even mantissa;
    an infinity from 2^1024 - 2^970 on.  Below 2^53 it is [n] itself. *)
Definition ofZ (n : Z) : float := SF2Prim (binary_normalize prec emax n 0 false).

(** [Math.round(x)]: the nearest integer, a tie going to the larger one;
    [None] for NaN and the infinities. *)
Definition mathRound (x : float) : option Z :=
  match Prim2SF x with
  | S754_zero _ => Some 0
  | S754_finite s m e =>
      let v := if s then Z.neg m else Z.pos m in
      Some (if 0 <=? e then v * 2 ^ e
            else (2 * v + 2 ^ (- e)) / (2 * 2 ^ (- e)))
  | _ => None
  end.

(** The doubles that the literals [0.05] and [0.02] denote. *)
Definition taxRate : float := 0x1.999999999999ap-5%float.
Definition serviceRate : float := 0x1.47ae147ae147bp-6%float.

(** [Math.round(subtotal * taxRate)] and [Math.round(subtotal * serviceRate)].
    The product of a finite double and a rate is finite, so [None] arises
    only for a [subtotal] that is no finite double (2^1024 and beyond). *)
Definition tax (subtotal : Z) : option Z := mathRound (PrimFloat.mul (ofZ subtotal) taxRate).
Definition service (subtotal : Z) : option Z := mathRound (PrimFloat.mul (ofZ subtotal) serviceRate).

(** A number in the condition of an [if]: [NaN] and the two zeros are
    falsy. *)
Definition truthy (x : float) : bool := negb (PrimFloat.is_nan x || PrimFloat.is_zero x).

(** [t >= x] for a timestamp [t]. *)
Definition atLeast (x : float) (t : Z) : bool := PrimFloat.leb x (ofZ t).

End Float64.

(** ** Phone normalisation and validation *)

(** The variables of [process.env] that the handlers read; [None] is an
    unset variable. *)
Record Env : Type := {
  DEFAULT_COUNTRY_CODE : option string;
  NODE_ENV : option string;
  DEBUG_OTPS : option string
}.

(** No variable set: the development defaults. *)
Definition defaultEnv : Env :=
  {| DEFAULT_COUNTRY_CODE := None; NODE_ENV := None; DEBUG_OTPS := None |}.

Module Phone.

(** [process.env.DEFAULT_COUNTRY_CODE || '+1'] *)
Definition countryCode (env : Env) : string :=
  Js.strOr (DEFAULT_COUNTRY_CODE env) "+1".

(** The class [[0-9+]]. *)
Definition isPhoneChar (c : ascii) : bool :=
  Js.isDigit c || if decide (c = "+"%char) then true else false.

Definition normalizePhone (env : Env) (raw : option string) : option string :=
  match raw with
  | None => None
  | Some EmptyString => None
  | Some raw =>
      let v := Js.trim raw in
      let v := if Js.startsWith v "whatsapp:"
               then Js.substringFrom (String.length "whatsapp:") v else v in
      let v := Js.removeNot isPhoneChar v in
      let v := if negb (Js.startsWith v "+")
               then countryCode env +:+ Js.stripLeading "0" v
               else v in
      Some v
  end.

Definition isValidPhone (env : Env) (raw : option string) : bool :=
  match normalizePhone env raw with
  | None => false
  | Some EmptyString => false
  | Some n =>
      let digits := Js.removeNot Js.isDigit n in
      bool_decide (8 <= String.length digits)%nat
  end.

End Phone.

(** ** Data model *)

Module Item.
(** A line of an order or a bill.  [price] and [quantity] are optional in
    the request body; the code reads them as [it.price || 0] and
    [it.quantity || 1]. *)
Record t : Type := {
  id : option string;
  name : string;
  price : option Z;
  quantity : option Z
}.

(** [(it.price || 0) * (it.quantity || 1)] *)
Definition lineTotal (it : t) : Z :=
  Js.numOr (price it) 0 * Js.numOr (quantity it) 1.
End Item.

(** The [items] field of a request body. *)
Inductive itemsField : Type :=
| ItemsMissing                       (* absent, [null], or another falsy value *)
| ItemsNotArray                      (* a truthy value that is not an array *)
| ItemsArray (l : list Item.t).

(** [!items || !Array.isArray(items) || items.length === 0] *)
Definition noItems (f : itemsField) : bool :=
  match f with
  | ItemsMissing => true
  | ItemsNotArray => true
  | ItemsArray l => bool_decide (length l = 0%nat)
  end.

Definition itemsOf (f : itemsField) : list Item.t :=
  match f with
  | ItemsArray l => l
  | _ => []
  end.

(** [items.reduce((s, it) => s + (it.price || 0) * (it.quantity || 1), 0)] *)
Definition sumItems (items : list Item.t) : Z :=
  fold_left (fun s it => s + Item.lineTotal it) items 0.

Module Order.
Record t : Type := {
  id : string;
  tableNumber : option Z;
  customerName : string;
  items : list Item.t;
  totalAmount : Z;
  status : string;
  createdAt : Z;
  updatedAt : option Z
}.

(** [o.status = status; o.updatedAt = now] *)
Definition setStatus (st : string) (now : Z) (o : t) : t :=
  {| id := id o; tableNumber := tableNumber o; customerName := customerName o;
     items := items o; totalAmount := totalAmount o;
     status := st; createdAt := createdAt o; updatedAt := Some now |}.
End Order.

Module Bill.
Record t : Type := {
  id : string;
  tableNumber : option Z;
  customerName : string;
  customerPhone : option string;
  items : list Item.t;
  subtotal : Z;
  tax : Z;
  service : Z;
  total : Z;
  createdAt : Z
}.
End Bill.

Module Otp.
Record t : Type := { code : string; createdAt : Z }.
End Otp.

(** The three in-memory stores of the process. *)
Record Store : Type := {
  orders : list Order.t;
  bills : list Bill.t;
  otps : gmap string Otp.t
}.

Definition emptyStore : Store := {| orders := []; bills := []; otps := ∅ |}.

Definition withOrders (st : Store) (os : list Order.t) : Store :=
  {| orders := os; bills := bills st; otps := otps st |}.
Definition withBills (st : Store) (bs : list Bill.t) : Store :=
  {| orders := orders st; bills := bs; otps := otps st |}.
Definition withOtps (st : Store) (m : gmap string Otp.t) : Store :=
  {| orders := orders st; bills := bills st; otps := m |}.

(** What a handler sends: [res.json(body)], or
    [res.status(code).json({ success: false, message })]. *)
Inductive reply (A : Type) : Type :=
| Json (body : A)
| Failure (code : Z) (message : string).
Arguments Json {A} body.
Arguments Failure {A} code message.

(** ** Order handlers *)

Record OrderBody : Type := {
  ob_tableNumber : option Z;
  ob_customerName : option string;
  ob_items : itemsField;
  ob_totalAmount : option Z
}.

(** The two readings of [Date.now()] in a handler that builds a record:
    the first goes into the id, the second into [createdAt]. *)
Record Clock : Type := { idTime : Z; createdTime : Z }.

(** [app.post("/orders")]; the reply carries [orderId]. *)
Definition postOrders (clock : Clock) (body : OrderBody) (st : Store) : reply string * Store :=
  if noItems (ob_items body) then
    (Failure 400 "No items in order", st)
  else
    let items := itemsOf (ob_items body) in
    let order :=
      {| Order.id := "ORD-" +:+ pretty (idTime clock);
         Order.tableNumber := Js.numOrNull (ob_tableNumber body);
         Order.customerName := Js.strOr (ob_customerName body) "Guest";
         Order.items := items;
         Order.totalAmount := Js.numOr (ob_totalAmount body) (sumItems items);
         Order.status := "PENDING";
         Order.createdAt := createdTime clock;
         Order.updatedAt := None |} in
    (Json (Order.id order), withOrders st (orders st ++ [order])).

(** [orders.findIndex((o) => o.id === id)]; [None] stands for [-1]. *)
Definition findIndex (id : string) (os : list Order.t) : option nat :=
  fst <$> list_find (fun o => Order.id o = id) os.

(** [app.patch("/orders/:id")] with body [{ status }]; the reply carries the
    order as it is after the call. *)
Definition patchOrder (now : Z) (id : string) (status : option string) (st : Store)
  : reply Order.t * Store :=
  match findIndex id (orders st) with
  | Some idx =>
      let os :=
        match status with
        | Some s =>
            if decide (s = "") then orders st
            else alter (Order.setStatus s now) idx (orders st)
        | None => orders st
        end in
      match os !! idx with
      | Some updated => (Json updated, withOrders st os)
      | None => (Failure 404 "Order not found", withOrders st os)
      end
  | None => (Failure 404 "Order not found", st)
  end.

(** ** OTP handlers *)

(** A property key: [otps[k]] with [k = null] reads the key ["null"]. *)
Definition propertyKey (k : option string) : string := from_option id "null" k.

(** [!phone] *)
Definition missing (x : option string) : bool :=
  match x with
  | Some s => bool_decide (s = "")
  | None => true
  end.

(** [Math.floor(1000 + Math.random() * 9000).toString()], where [draw] is
    the integer part of [Math.random() * 9000], between 0 and 8999. *)
Definition otpCode (draw : Z) : string := pretty (1000 + draw).

(** [process.env.NODE_ENV !== 'production' || process.env.DEBUG_OTPS === 'true'] *)
Definition exposeCode (env : Env) : bool :=
  negb (bool_decide (NODE_ENV env = Some "production"))
  || bool_decide (DEBUG_OTPS env = Some "true").

Record OtpReply : Type := { or_code : option string; or_phone : string }.

(** [app.post("/otp")] *)
Definition postOtp (env : Env) (now draw : Z) (phone : option string) (st : Store)
  : reply OtpReply * Store :=
  if missing phone then (Failure 400 "Phone required", st)
  else if negb (Phone.isValidPhone env phone) then (Failure 400 "Invalid phone format", st)
  else
    let normPhone := propertyKey (Phone.normalizePhone env phone) in
    let code := otpCode draw in
    let st' := withOtps st (<[normPhone := {| Otp.code := code; Otp.createdAt := now |}]> (otps st)) in
    (Json {| or_code := if exposeCode env then Some code else None; or_phone := normPhone |}, st').

(** [app.post("/otp/verify")]; the reply carries the normalised phone. *)
Definition postOtpVerify (env : Env) (phone : option string) (code : Js.value) (st : Store)
  : reply string * Store :=
  if missing phone || negb (Js.truthy code) then (Failure 400 "Phone and code required", st)
  else if negb (Phone.isValidPhone env phone) then (Failure 400 "Invalid phone format", st)
  else
    let normPhone := propertyKey (Phone.normalizePhone env phone) in
    match otps st !! normPhone with
    | None => (Failure 400 "No OTP requested", st)
    | Some record =>
        if decide (Otp.code record = Js.toString code)
        then (Json normPhone, withOtps st (delete normPhone (otps st)))
        else (Failure 400 "Invalid code", st)
    end.

(** ** Bill handler *)

Record BillBody : Type := {
  bb_tableNumber : option Z;
  bb_customerName : option string;
  bb_customerPhone : option string;
  bb_items : itemsField
}.

(** [app.post("/bills")]; the reply carries the bill.  [tax] and [service]
    are integers for every subtotal that is a finite double; the model has 0
    where they are not. *)
Definition postBills (env : Env) (clock : Clock) (body : BillBody) (st : Store)
  : reply Bill.t * Store :=
  if noItems (bb_items body) then (Failure 400 "No items to bill", st)
  else if negb (missing (bb_customerPhone body))
          && negb (Phone.isValidPhone env (bb_customerPhone body))
  then (Failure 400 "invalid phone format", st)
  else
    let normalizedCustomerPhone :=
      if negb (missing (bb_customerPhone body))
      then Phone.normalizePhone env (bb_customerPhone body) else None in
    let normalizedCustomerPhone :=
      if missing normalizedCustomerPhone then None else normalizedCustomerPhone in
    let items := itemsOf (bb_items body) in
    let subtotal := sumItems items in
    let tax := default 0 (Float64.tax subtotal) in
    let service := default 0 (Float64.service subtotal) in
    let total := subtotal + tax + service in
    let bill :=
      {| Bill.id := "BILL-" +:+ pretty (idTime clock);
         Bill.tableNumber := Js.numOrNull (bb_tableNumber body);
         Bill.customerName := Js.strOr (bb_customerName body) "Guest";
         Bill.customerPhone := normalizedCustomerPhone;
         Bill.items := items;
         Bill.subtotal := subtotal;
         Bill.tax := tax;
         Bill.service := service;
         Bill.total := total;
         Bill.createdAt := createdTime clock |} in
    (Json bill, withBills st (bills st ++ [bill])).

(** ** Daily report *)

Record HourBucket : Type := { hour : nat; hb_orders : nat; hb_revenue : Z }.

Record Report : Type := {
  totalOrders : nat;
  totalRevenue : Z;
  averageOrderValue : Q;
  totalCustomers : nat;
  hourlyBreakdown : list HourBucket
}.

(** [(b) => b.createdAt >= lo && b.createdAt <= hi] *)
Definition within (lo hi : Z) (b : Bill.t) : bool :=
  (lo <=? Bill.createdAt b) && (Bill.createdAt b <=? hi).

(** [l.reduce((s, b) => s + (b.total || 0), 0)] *)
Definition sumTotals (l : list Bill.t) : Z :=
  fold_left (fun s b => s + Js.numOr (Some (Bill.total b)) 0) l 0.

(** One turn of the loop [for (let h = 0; h < 24; h++)]. *)
Definition hourBucket (start : Z) (dayBills : list Bill.t) (h : nat) : HourBucket :=
  let hourStart := start + Z.of_nat h * 3600 * 1000 in
  let hourEnd := hourStart + 3600 * 1000 - 1 in
  let hb := List.filter (within hourStart hourEnd) dayBills in
  {| hour := h; hb_orders := length hb; hb_revenue := sumTotals hb |}.

(** The body of [app.get("/reports/daily")] from [dayBills] on.  [topItems]
    is left out of the record. *)
Definition reportOfWindow (start end_ : Z) (bs : list Bill.t) : Report :=
  let dayBills := List.filter (within start end_) bs in
  let totalRevenue := sumTotals dayBills in
  let totalOrders := length dayBills in
  let customers : gset string := list_to_set (map Bill.customerName dayBills) in
  {| totalOrders := totalOrders;
     totalRevenue := totalRevenue;
     averageOrderValue :=
       if decide (totalOrders = 0%nat) then 0%Q
       else (inject_Z totalRevenue / inject_Z (Z.of_nat totalOrders))%Q;
     totalCustomers := size customers;
     hourlyBreakdown := map (hourBucket start dayBills) (seq 0 24) |}.

(** [app.get("/reports/daily")].  [start] and [end_] are what
    [new Date(date + "T00:00:00").getTime()] and
    [new Date(date + "T23:59:59").getTime()] return: the two strings are read
    in the time zone of the server, so how far the second instant lies from
    the first depends on the zone and the date, and both are inputs. *)
Definition dailyReport (start end_ : Z) (st : Store) : Report :=
  reportOfWindow start end_ (bills st).

(** ** Reading orders and bills *)

(** [parseInt(s, 10)]: leading white space is skipped, one sign is read,
    then the longest run of decimal digits.  [parseDigits] is the integer
    that the digits write, [None] when there is no digit; [parseInt10] is
    the number returned: the double nearest to that integer, or [NaN]. *)
Definition digitValue (c : ascii) : option Z := Z.of_nat <$> Ascii.is_nat c.

Fixpoint readDigits (acc : Z) (s : string) : Z :=
  match s with
  | EmptyString => acc
  | String c r =>
      match digitValue c with
      | Some d => readDigits (10 * acc + d) r
      | None => acc
      end
  end.

Definition parseDigits (s : string) : option Z :=
  match s with
  | EmptyString => None
  | String c _ =>
      match digitValue c with
      | Some _ => Some (readDigits 0 s)
      | None => None
      end
  end.

Definition parseSigned (s : string) : option Z :=
  match Js.trimStart s with
  | String "-" r => Z.opp <$> parseDigits r
  | String "+" r => parseDigits r
  | t => parseDigits t
  end.

Definition parseInt10 (s : string) : PrimFloat.float :=
  match parseSigned s with
  | Some n => Float64.ofZ n
  | None => PrimFloat.nan
  end.

Record OrdersQuery : Type := {
  q_status : option string;
  q_excludeCompleted : option string;
  q_since : option string
}.

(** [since ? parseInt(String(since), 10) : null], then [if (sinceTs)]:
    the bound that is applied, if any. *)
Definition sinceBound (since : option string) : option PrimFloat.float :=
  if missing since then None
  else
    let sinceTs := parseInt10 (Js.strOr since EmptyString) in
    if Float64.truthy sinceTs then Some sinceTs else None.

(** [app.get("/orders")] on the in-memory list.  The [timestamp] that the
    listing adds to an order is its [createdAt]. *)
Definition getOrders (q : OrdersQuery) (st : Store) : list Order.t :=
  let list := orders st in
  let list :=
    if missing (q_status q) then list
    else List.filter (fun l => bool_decide (Order.status l = Js.strOr (q_status q) EmptyString)) list in
  let list :=
    if bool_decide (q_excludeCompleted q = Some "true")
    then List.filter (fun l => negb (bool_decide (Order.status l = "COMPLETED"))) list
    else list in
  match sinceBound (q_since q) with
  | Some sinceTs => List.filter (fun l => Float64.atLeast sinceTs (Order.createdAt l)) list
  | None => list
  end.

(** [app.get("/orders/:id")]: [orders.find((o) => o.id === id)]. *)
Definition getOrder (id : string) (st : Store) : reply Order.t :=
  match list_find (fun o => Order.id o = id) (orders st) with
  | Some (_, order) => Json order
  | None => Failure 404 "Order not found"
  end.

(** [app.get("/bills/:id")] *)
Definition getBill (id : string) (st : Store) : reply Bill.t :=
  match list_find (fun b => Bill.id b = id) (bills st) with
  | Some (_, bill) => Json bill
  | None => Failure 404 "Bill not found"
  end.

(** [app.get('/bills/by-customer/:phone')] on the in-memory list. *)
Definition billsByCustomer (env : Env) (rawPhone : string) (st : Store)
  : reply (list Bill.t) :=
  if negb (Phone.isValidPhone env (Some rawPhone))
  then Failure 400 "invalid phone format"
  else
    let norm := Phone.normalizePhone env (Some rawPhone) in
    Json (List.filter (fun b => bool_decide (Bill.customerPhone b = norm)) (bills st)).

(** The recipient that [sendWhatsAppMessage] hands to Twilio:
    [phone.startsWith("whatsapp:") ? phone : `whatsapp:${phone}`]. *)
Definition whatsappAddress (phone : string) : string :=
  if Js.startsWith phone "whatsapp:" then phone else "whatsapp:" +:+ phone.

(** ** Sorting and plain objects *)

(** [Array.prototype.sort(cmp)] is stable: for a comparator that orders
    consistently its result is the sorted arrangement that keeps equal
    elements in their order, which insertion from the right computes.
    [cmp a b <= 0] keeps [a] before [b]. *)
Fixpoint insertBy {A} (cmp : A -> A -> Z) (x : A) (l : list A) : list A :=
  match l with
  | [] => [x]
  | y :: l' => if cmp x y <=? 0 then x :: l else y :: insertBy cmp x l'
  end.

Definition sortBy {A} (cmp : A -> A -> Z) (l : list A) : list A :=
  foldr (insertBy cmp) [] l.

(** The names that a plain object inherits from [Object.prototype]; each
    reads as a truthy value on an object that does not define it. *)
Definition inheritedNames : list string :=
  [ "constructor"; "__defineGetter__"; "__defineSetter__"; "hasOwnProperty";
    "__lookupGetter__"; "__lookupSetter__"; "isPrototypeOf";
    "propertyIsEnumerable"; "toString"; "valueOf"; "__proto__"; "toLocaleString" ].

(** An array index: the decimal writing of an integer below 2^32 - 1. *)
Definition arrayIndex (key : string) : option Z :=
  match parseDigits key with
  | Some n => if bool_decide (pretty n = key) && (n <? 2 ^ 32 - 1) then Some n else None
  | None => None
  end.

(** [Object.values(o)] for the own properties [o], listed in the order of
    their creation: the array indices first, ascending, then the others. *)
Definition objectValues {A} (o : list (string * A)) : list A :=
  let indexed := omap (fun kv => (fun i => (i, kv.2)) <$> arrayIndex kv.1) o in
  let named := List.filter (fun kv => bool_decide (arrayIndex kv.1 = None)) o in
  map snd (sortBy (fun a b => a.1 - b.1) indexed) ++ map snd named.

(** ** Top items of the daily report *)

Record TopItem : Type := { ti_name : string; ti_quantity : Z; ti_revenue : Z }.

(** The body of [b.items.forEach((it) => ...)] on the own properties of
    [itemMap].  For a key among [inheritedNames] the test [!itemMap[key]]
    finds the inherited value, and the two updates land outside [itemMap]. *)
Definition countItem (itemMap : list (string * TopItem)) (it : Item.t)
  : list (string * TopItem) :=
  let key := Js.strOr (Item.id it) (Item.name it) in
  if bool_decide (key ∈ inheritedNames) then itemMap
  else
    let itemMap :=
      if bool_decide (key ∈ map fst itemMap) then itemMap
      else itemMap ++ [(key, {| ti_name := Item.name it; ti_quantity := 0; ti_revenue := 0 |})] in
    map (fun kv =>
           if bool_decide (kv.1 = key)
           then (kv.1, {| ti_name := ti_name kv.2;
                          ti_quantity := ti_quantity kv.2 + Js.numOr (Item.quantity it) 1;
                          ti_revenue := ti_revenue kv.2 + Item.lineTotal it |})
           else kv) itemMap.

Definition itemMapOf (dayBills : list Bill.t) : list (string * TopItem) :=
  fold_left (fun m b => fold_left countItem (Bill.items b) m) dayBills [].

(** [Object.values(itemMap).sort((a, b) => b.quantity - a.quantity).slice(0, 10)] *)
Definition topItemsOf (dayBills : list Bill.t) : list TopItem :=
  take 10 (sortBy (fun a b => ti_quantity b - ti_quantity a) (objectValues (itemMapOf dayBills))).

(** [topItems] of [app.get("/reports/daily")] for the window [start .. end_]. *)
Definition topItems (start end_ : Z) (bs : list Bill.t) : list TopItem :=
  topItemsOf (List.filter (within start end_) bs).

(** ** Kitchen dashboard (KitchenDashboard component) *)

(** The comparator of [sortedOrders]; [timestamp] is the [createdAt] of the
    order. *)
Definition compareOrders (a b : Order.t) : Z :=
  if bool_decide (Order.status a = "BILL_REQUESTED")
     && negb (bool_decide (Order.status b = "BILL_REQUESTED")) then -1
  else if bool_decide (Order.status b = "BILL_REQUESTED")
          && negb (bool_decide (Order.status a = "BILL_REQUESTED")) then 1
  else Order.createdAt a - Order.createdAt b.

Definition sortedOrders (os : list Order.t) : list Order.t := sortBy compareOrders os.

(** What the button of [getActionButton] does when clicked. *)
Inductive Action : Type :=
| ChangeStatus (newStatus : string)    (* [handleStatusChange(order.id, newStatus)] *)
| OpenBillDialog.                      (* [setBillOrder(order); setBillOpen(true)] *)

Definition getActionButton (order : Order.t) : option Action :=
  if bool_decide (Order.status order = "PENDING") then Some (ChangeStatus "PREPARING")
  else if bool_decide (Order.status order = "PREPARING") then Some (ChangeStatus "READY")
  else if bool_decide (Order.status order = "READY") then Some OpenBillDialog
  else if bool_decide (Order.status order = "BILL_REQUESTED") then Some OpenBillDialog
  else None.

(** [generateBillForOrder(order)] against the server: [POST /bills], served
    with the clock readings [clock] and, when that is answered 200,
    [PATCH /orders/:id] with [COMPLETED] at time [now].  [None] is
    [{ success: false }]. *)
Definition generateBillForOrder (env : Env) (clock : Clock) (now : Z) (order : Order.t)
  (st : Store)
  : option Bill.t * Store :=
  let body := {| bb_tableNumber := Order.tableNumber order;
                 bb_customerName := Some (Order.customerName order);
                 bb_customerPhone := None;
                 bb_items := ItemsArray (Order.items order) |} in
  match postBills env clock body st with
  | (Json bill, st') => (Some bill, (patchOrder now (Order.id order) (Some "COMPLETED") st').2)
  | (Failure _ _, st') => (None, st')
  end.

(** The figures that the bill dialog shows for [billOrder]: subtotal, tax,
    service and total. *)
Definition billPreview (billOrder : Order.t) : Z * Z * Z * Z :=
  let subtotal := Js.numOr (Some (Order.totalAmount billOrder)) 0 in
  let tax := default 0 (Float64.tax subtotal) in
  let service := default 0 (Float64.service subtotal) in
  (subtotal, tax, service, subtotal + tax + service).

(** ** Messaging services (whatsappService.js, smsService.js) *)

(** How the [fetch] of a send ends: a response with [response.ok], the
    [error.message] and the [message] of its JSON body, or an exception
    with its message. *)
Inductive FetchResult : Type :=
| Responded (ok : bool) (errorMessage : option string) (bodyMessage : option string)
| Threw (message : string).

(** [{ success, message }] *)
Record SendReply : Type := { success : bool; message : option string }.

Definition sent : SendReply := {| success := true; message := None |}.
Definition notSent (m : string) : SendReply := {| success := false; message := Some m |}.

Module Whatsapp.
Record Settings : Type := {
  enabled : bool;
  apiKey : string;
  phoneNumber : string;
  credits : Z;
  used : Z
}.

(** The settings the module starts with. *)
Definition initial : Settings :=
  {| enabled := false; apiKey := ""; phoneNumber := ""; credits := 1000; used := 0 |}.

(** [sendWhatsappMessage(phone, message)]; [outcome] is how the request to
    the Graph API ends, if it is made. *)
Definition sendWhatsappMessage (outcome : FetchResult) (s : Settings) : SendReply * Settings :=
  if negb (enabled s) || bool_decide (apiKey s = "") || bool_decide (phoneNumber s = "")
  then (notSent "WhatsApp not configured", s)
  else if credits s <=? used s then (notSent "Credits exhausted", s)
  else match outcome with
       | Responded true _ _ =>
           (sent, {| enabled := enabled s; apiKey := apiKey s; phoneNumber := phoneNumber s;
                     credits := credits s; used := used s + 1 |})
       | Responded false errorMessage _ => (notSent (Js.strOr errorMessage "API error"), s)
       | Threw m => ({| success := false; message := Some m |}, s)
       end.

(** The fields of [newSettings]: [upd_enabled] is [Some] for a boolean
    only, the other two are [None] when [undefined]. *)
Record Update : Type := {
  upd_enabled : option bool;
  upd_apiKey : option string;
  upd_phoneNumber : option string
}.

Definition updateWhatsappSettings (u : Update) (s : Settings) : Settings :=
  {| enabled := default (enabled s) (upd_enabled u);
     apiKey := default (apiKey s) (upd_apiKey u);
     phoneNumber := default (phoneNumber s) (upd_phoneNumber u);
     credits := credits s;
     used := used s |}.

(** One call on the module. *)
Inductive Call : Type :=
| Send (outcome : FetchResult)
| Configure (u : Update).

Definition call (c : Call) (s : Settings) : Settings :=
  match c with
  | Send outcome => (sendWhatsappMessage outcome s).2
  | Configure u => updateWhatsappSettings u s
  end.

(** The settings after a sequence of calls, the first call first. *)
Definition run (cs : list Call) (s : Settings) : Settings :=
  fold_left (fun s c => call c s) cs s.
End Whatsapp.

Module Sms.
Record Settings : Type := {
  enabled : bool;
  provider : string;
  apiKey : string;
  apiSecret : string;
  phoneNumber : string;
  credits : Z;
  used : Z
}.

Definition initial : Settings :=
  {| enabled := false; provider := "twilio"; apiKey := ""; apiSecret := "";
     phoneNumber := ""; credits := 100; used := 0 |}.

(** [Object.keys(SMS_PROVIDERS)] *)
Definition getAvailableSmsProviders : list string :=
  ["twilio"; "aws-sns"; "messagebird"; "nexmo"].

(** [SMS_PROVIDERS[name]] is truthy: an own key, or a name inherited from
    [Object.prototype]. *)
Definition providerFound (name : string) : bool :=
  bool_decide (name ∈ getAvailableSmsProviders) || bool_decide (name ∈ inheritedNames).

(** The cases of the [switch] that make a request. *)
Definition providerSends (name : string) : bool :=
  bool_decide (name = "twilio") || bool_decide (name = "messagebird")
  || bool_decide (name = "nexmo").

Definition withUsed (s : Settings) (n : Z) : Settings :=
  {| enabled := enabled s; provider := provider s; apiKey := apiKey s;
     apiSecret := apiSecret s; phoneNumber := phoneNumber s;
     credits := credits s; used := n |}.

(** [sendSmsMessage(phone, message)] *)
Definition sendSmsMessage (outcome : FetchResult) (s : Settings) : SendReply * Settings :=
  if negb (enabled s) || bool_decide (apiKey s = "") || bool_decide (phoneNumber s = "")
  then (notSent "SMS not configured", s)
  else if credits s <=? used s then (notSent "Credits exhausted", s)
  else if negb (providerFound (provider s)) then (notSent "Invalid SMS provider", s)
  else if negb (providerSends (provider s)) then (notSent "Unsupported SMS provider", s)
  else match outcome with
       | Responded true _ _ => (sent, withUsed s (used s + 1))
       | Responded false errorMessage bodyMessage =>
           (notSent (Js.strOr errorMessage (Js.strOr bodyMessage "API error")), s)
       | Threw m => ({| success := false; message := Some m |}, s)
       end.

Record Update : Type := {
  upd_enabled : option bool;
  upd_provider : option string;
  upd_apiKey : option string;
  upd_apiSecret : option string;
  upd_phoneNumber : option string
}.

Definition updateSmsSettings (u : Update) (s : Settings) : Settings :=
  {| enabled := default (enabled s) (upd_enabled u);
     provider :=
       match upd_provider u with
       | Some p => if negb (bool_decide (p = "")) && providerFound p then p else provider s
       | None => provider s
       end;
     apiKey := default (apiKey s) (upd_apiKey u);
     apiSecret := default (apiSecret s) (upd_apiSecret u);
     phoneNumber := default (phoneNumber s) (upd_phoneNumber u);
     credits := credits s;
     used := used s |}.

Inductive Call : Type :=
| Send (outcome : FetchResult)
| Configure (u : Update).

Definition call (c : Call) (s : Settings) : Settings :=
  match c with
  | Send outcome => (sendSmsMessage outcome s).2
  | Configure u => updateSmsSettings u s
  end.

Definition run (cs : list Call) (s : Settings) : Settings :=
  fold_left (fun s c => call c s) cs s.
End Sms.

(** ** Notions used in the statements *)

(** Every character of [s] is in the class [keep]. *)
Fixpoint allChars (keep : ascii -> bool) (s : string) : bool :=
  match s with
  | EmptyString => true
  | String c r => keep c && allChars keep r
  end.

(** The last step of [normalizePhone], on the string of digits and [+]. *)
Definition withCountryCode (env : Env) (v : string) : string :=
  if negb (Js.startsWith v "+") then Phone.countryCode env +:+ Js.stripLeading "0" v else v.

(** A country code of the form the default has: a [+] first, then digits
    and [+] only. *)
Definition wellFormedCode (env : Env) : Prop :=
  Js.startsWith (Phone.countryCode env) "+" = true
  /\ allChars Phone.isPhoneChar (Phone.countryCode env) = true.

(** The string of [k] zeros. *)
Fixpoint zeros (k : nat) : string :=
  match k with
  | O => EmptyString
  | S k' => String "0" (zeros k')
  end.

(** A string made of decimal digits only. *)
Definition decimal (s : string) : Prop :=
  Forall (fun c => c ∈ list_ascii_of_string "0123456789") (list_ascii_of_string s).

(** A string that does not open with a zero. *)
Definition noLeadingZero (s : string) : Prop := forall r, s <> String "0" r.

(** An environment in which [DEFAULT_COUNTRY_CODE] is set to [cc]. *)
Definition envWithCode (cc : string) : Env :=
  {| DEFAULT_COUNTRY_CODE := Some cc; NODE_ENV := None; DEBUG_OTPS := None |}.

(** [price × quantity] of a line that carries both. *)
Definition amount (it : Item.t) : Z :=
  default 0 (Item.price it) * default 0 (Item.quantity it).

(** A line as the data model has it: a non-negative price and a positive
    quantity, both present. *)
Definition wellFormedItem (it : Item.t) : Prop :=
  exists p q, Item.price it = Some p /\ Item.quantity it = Some q /\ 0 <= p /\ 0 < q.

(** The sum of a list of integers. *)
Definition Zsum (l : list Z) : Z := foldr Z.add 0 l.

(** 5 % and 2 % of a subtotal as exact numbers, rounded to the nearest
    integer, a half going up. *)
Definition taxOf (subtotal : Z) : Z := Js.roundDiv (subtotal * 5) 100.
Definition serviceOf (subtotal : Z) : Z := Js.roundDiv (subtotal * 2) 100.

(** An [items] field that is missing, not an array, or the empty array. *)
Definition emptyItems (f : itemsField) : Prop :=
  f = ItemsMissing \/ f = ItemsNotArray \/ f = ItemsArray [].

(** A complete line [{ price: p, quantity: q }]. *)
Definition line (p q : Z) : Item.t :=
  {| Item.id := None; Item.name := EmptyString; Item.price := Some p; Item.quantity := Some q |}.

(** [subtotal], [tax], [service] and [total] of the bill in a reply. *)
Definition billFigures (r : reply Bill.t) : option (Z * Z * Z * Z) :=
  match r with
  | Json b => Some (Bill.subtotal b, Bill.tax b, Bill.service b, Bill.total b)
  | Failure _ _ => None
  end.

(** A bill created inside the window [start .. end_], both ends included. *)
Definition inWindow (start end_ : Z) (b : Bill.t) : Prop :=
  start <= Bill.createdAt b <= end_.

Global Instance inWindow_dec start end_ b : Decision (inWindow start end_ b).
Proof. unfold inWindow. apply _. Defined.



(** The end of the window of a day of 24 hours that opens at [midnight]:
    23:59:59 is 86 399 seconds after 00:00:00 when the offset of the zone
    does not change in between. *)
Definition dayEnd (midnight : Z) : Z := midnight + (23 * 3600 + 59 * 60 + 59) * 1000.






(** [p] holds of the [n] integers from [s] on. *)
Fixpoint allFrom (p : Z -> bool) (s : Z) (n : nat) : bool :=
  match n with
  | O => true
  | S n' => p s && allFrom p (s + 1) n'
  end.

(** The store after a series of verification attempts for one phone. *)
Definition verifyAll (env : Env) (phone : option string) (codes : list Js.value) (st : Store)
  : Store :=
  fold_left (fun s c => (postOtpVerify env phone c s).2) codes st.

(** The order that [POST /orders] builds from a body with a non-empty
    [items] array. *)
Definition newOrder (clock : Clock) (body : OrderBody) : Order.t :=
  {| Order.id := "ORD-" +:+ pretty (idTime clock);
     Order.tableNumber := Js.numOrNull (ob_tableNumber body);
     Order.customerName := Js.strOr (ob_customerName body) "Guest";
     Order.items := itemsOf (ob_items body);
     Order.totalAmount := Js.numOr (ob_totalAmount body) (sumItems (itemsOf (ob_items body)));
     Order.status := "PENDING";
     Order.createdAt := createdTime clock;
     Order.updatedAt := None |}.

(** A string that opens with a digit. *)
Definition digitFirst (s : string) : Prop :=
  exists c r d, s = String c r /\ digitValue c = Some d.

(** The bill that [POST /bills] builds from a body with a non-empty
    [items] array and a customer phone that is absent or valid. *)
Definition newBill (env : Env) (clock : Clock) (body : BillBody) : Bill.t :=
  let subtotal := sumItems (itemsOf (bb_items body)) in
  let tax := default 0 (Float64.tax subtotal) in
  let service := default 0 (Float64.service subtotal) in
  {| Bill.id := "BILL-" +:+ pretty (idTime clock);
     Bill.tableNumber := Js.numOrNull (bb_tableNumber body);
     Bill.customerName := Js.strOr (bb_customerName body) "Guest";
     Bill.customerPhone :=
       if missing (bb_customerPhone body) then None
       else Phone.normalizePhone env (bb_customerPhone body);
     Bill.items := itemsOf (bb_items body);
     Bill.subtotal := subtotal;
     Bill.tax := tax;
     Bill.service := service;
     Bill.total := subtotal + tax + service;
     Bill.createdAt := createdTime clock |}.

(** Every stored bill carries no phone or a phone that is its own key. *)
Definition phonesAreKeys (env : Env) (st : Store) : Prop :=
  Forall (fun b => Bill.customerPhone b = None
                   \/ (Phone.isValidPhone env (Bill.customerPhone b) = true
                       /\ Phone.normalizePhone env (Bill.customerPhone b)
                          = Bill.customerPhone b))
         (bills st).



(** [a] may stand before [b] in [sortedOrders]: a [BILL_REQUESTED] order
    before any other, and among two of the same kind the older first. *)
Definition servedBefore (a b : Order.t) : Prop :=
  (Order.status a = "BILL_REQUESTED" /\ Order.status b <> "BILL_REQUESTED")
  \/ ((Order.status a = "BILL_REQUESTED" <-> Order.status b = "BILL_REQUESTED")
      /\ Order.createdAt a <= Order.createdAt b).

(** One round of the dashboard on the order with id [id]: the order is
    read from the server, and the action of its button is carried through
    (for the bill dialog: confirmed).  [now] is the time of the status
    update, [clock] the readings of the bill, if one is made. *)
Definition dashboardRound (env : Env) (clock : Clock) (now : Z) (id : string) (st : Store)
  : Store :=
  match getOrder id st with
  | Json order =>
      match getActionButton order with
      | Some (ChangeStatus newStatus) => (patchOrder now id (Some newStatus) st).2
      | Some OpenBillDialog => (generateBillForOrder env clock now order st).2
      | None => st
      end
  | Failure _ _ => st
  end.

(** The status of the first order with id [id], if there is one. *)
Definition statusOf (id : string) (st : Store) : option string :=
  match getOrder id st with
  | Json order => Some (Order.status order)
  | Failure _ _ => None
  end.

(** The store [st] with the bills [bs] in place of its own and one more
    order [o] at the end. *)
Definition servingStore (st : Store) (o : Order.t) (bs : list Bill.t) : Store :=
  withOrders (withBills st bs) (orders st ++ [o]).

(** * Properties *)

(** ** Strings *)

Section StringFacts.
Variable keep : ascii -> bool.
Local Abbreviation allChars := (allChars keep).

Lemma removeNot_allChars s : allChars (Js.removeNot keep s) = true.
Proof.
  induction s as [|c r IH]; simpl; [done|].
  destruct (keep c) eqn:Hc; simpl; [by rewrite Hc|done].
Qed.

Lemma removeNot_fixed s : allChars s = true -> Js.removeNot keep s = s.
Proof.
  induction s as [|c r IH]; simpl; [done|].
  intros [Hc Hr]%andb_prop. rewrite Hc. by rewrite IH.
Qed.

Lemma allChars_app s1 s2 :
  allChars (s1 +:+ s2) = allChars s1 && allChars s2.
Proof.
  induction s1 as [|c r IH]; [done|].
  change (String c r +:+ s2) with (String c (r +:+ s2)).
  simpl. by rewrite IH, andb_assoc.
Qed.

Lemma allChars_stripLeading c s :
  allChars s = true -> allChars (Js.stripLeading c s) = true.
Proof.
  induction s as [|a r IH]; simpl; [done|].
  intros H. destruct (decide (a = c)); [|done].
  apply IH. by apply andb_prop in H as [_ ?].
Qed.

Hypothesis drops_space : forall c, Js.isWhiteSpace c = true -> keep c = false.

Lemma removeNot_trimStart s : Js.removeNot keep (Js.trimStart s) = Js.removeNot keep s.
Proof.
  induction s as [|c r IH]; simpl; [done|].
  destruct (Js.isWhiteSpace c) eqn:Hc; [|done].
  by rewrite (drops_space _ Hc).
Qed.

Lemma removeNot_trimEnd s : Js.removeNot keep (Js.trimEnd s) = Js.removeNot keep s.
Proof.
  induction s as [|c r IH]; simpl; [done|].
  rewrite <- IH. destruct (Js.trimEnd r) as [|c' r'] eqn:Hr; [|done].
  destruct (Js.isWhiteSpace c) eqn:Hc; [|done].
  by rewrite (drops_space _ Hc).
Qed.

Lemma removeNot_trim s : Js.removeNot keep (Js.trim s) = Js.removeNot keep s.
Proof. unfold Js.trim. by rewrite removeNot_trimEnd, removeNot_trimStart. Qed.

(** Cutting off a prefix that the class rejects whole changes nothing. *)
Lemma removeNot_substringFrom p s :
  Js.startsWith s p = true -> Js.removeNot keep p = EmptyString ->
  Js.removeNot keep (Js.substringFrom (String.length p) s) = Js.removeNot keep s.
Proof.
  revert s. induction p as [|a p IH]; intros s; [done|].
  destruct s as [|b s]; simpl; [done|].
  destruct (decide (a = b)) as [->|]; [|done].
  destruct (keep b) eqn:Hb; [done|]. intros. by rewrite IH.
Qed.
End StringFacts.

Lemma startsWith_app s1 s2 p :
  Js.startsWith s1 p = true -> Js.startsWith (s1 +:+ s2) p = true.
Proof.
  revert s1. induction p as [|a p IH]; [done|].
  intros [|b s1]; simpl; [done|].
  change (String b s1 +:+ s2) with (String b (s1 +:+ s2)). simpl.
  destruct (decide (a = b)); [apply IH|done].
Qed.

Lemma stripLeading_no_leading c s : Js.startsWith (Js.stripLeading c s) (String c EmptyString) = false.
Proof.
  induction s as [|a r IH]; simpl; [done|].
  destruct (decide (a = c)) as [->|Hne]; [done|].
  simpl. destruct (decide (c = a)); [congruence|done].
Qed.

(** ** Phone normalisation *)

Lemma isPhoneChar_not_space c : Js.isWhiteSpace c = true -> Phone.isPhoneChar c = false.
Proof. destruct c as [[] [] [] [] [] [] [] []]; done. Qed.

Lemma isDigit_not_space c : Js.isWhiteSpace c = true -> Js.isDigit c = false.
Proof. destruct c as [[] [] [] [] [] [] [] []]; done. Qed.

(** Trimming and cutting off [whatsapp:] never change the result: the class
    [[0-9+]] rejects white space and every letter of the prefix. *)
Lemma normalizePhone_filtered env raw :
  raw <> EmptyString ->
  Phone.normalizePhone env (Some raw)
  = Some (withCountryCode env (Js.removeNot Phone.isPhoneChar raw)).
Proof.
  intros Hne. destruct raw as [|a r]; [done|].
  unfold Phone.normalizePhone, withCountryCode.
  set (v := if Js.startsWith _ "whatsapp:" then _ else _).
  assert (Js.removeNot Phone.isPhoneChar v
          = Js.removeNot Phone.isPhoneChar (String a r)) as ->; [|done].
  unfold v. destruct (Js.startsWith _ "whatsapp:") eqn:Hp.
  - rewrite removeNot_substringFrom by done.
    apply removeNot_trim, isPhoneChar_not_space.
  - apply removeNot_trim, isPhoneChar_not_space.
Qed.

Lemma normalizePhone_idempotent_code env raw :
  wellFormedCode env ->
  Phone.normalizePhone env (Phone.normalizePhone env raw) = Phone.normalizePhone env raw.
Proof.
  intros [Hplus Hchars]. destruct raw as [raw|]; [|done].
  destruct (decide (raw = EmptyString)) as [->|Hne]; [done|].
  rewrite (normalizePhone_filtered env raw Hne).
  set (v := Js.removeNot Phone.isPhoneChar raw).
  assert (Hv : allChars Phone.isPhoneChar v = true) by apply removeNot_allChars.
  assert (Hw : allChars Phone.isPhoneChar (withCountryCode env v) = true).
  { unfold withCountryCode. destruct (negb _); [|done].
    rewrite allChars_app, Hchars. by apply allChars_stripLeading. }
  assert (Hs : Js.startsWith (withCountryCode env v) "+" = true).
  { unfold withCountryCode. destruct (Js.startsWith v "+") eqn:E; [done|].
    by apply startsWith_app. }
  rewrite normalizePhone_filtered.
  - rewrite removeNot_fixed by done.
    unfold withCountryCode at 1. by rewrite Hs.
  - intros E. by rewrite E in Hs.
Qed.


Lemma decimal_cons c s : decimal (String c s) <-> c ∈ list_ascii_of_string "0123456789" /\ decimal s.
Proof. unfold decimal. cbn [list_ascii_of_string]. by rewrite Forall_cons. Qed.

Lemma decimal_isPhoneChar c : c ∈ list_ascii_of_string "0123456789" -> Phone.isPhoneChar c = true.
Proof. intros H. simpl in H. set_unfold. by repeat (destruct H as [->|H]; [done|]). Qed.

Lemma decimal_not_space c : c ∈ list_ascii_of_string "0123456789" -> Js.isWhiteSpace c = false.
Proof. intros H. simpl in H. set_unfold. by repeat (destruct H as [->|H]; [done|]). Qed.

Lemma zeros_decimal k s : decimal s -> decimal (zeros k +:+ s).
Proof.
  intros Hs. induction k as [|k IH]; [done|]. simpl.
  apply decimal_cons. split; [|done]. simpl. set_solver.
Qed.

Lemma decimal_allChars s : decimal s -> allChars Phone.isPhoneChar s = true.
Proof.
  induction s as [|c s IH]; [done|]. intros [Hc Hs]%decimal_cons. simpl.
  by rewrite (decimal_isPhoneChar c Hc), IH.
Qed.

Lemma stripLeading_zeros k s : noLeadingZero s -> Js.stripLeading "0" (zeros k +:+ s) = s.
Proof.
  intros Hs. induction k as [|k IH]; simpl.
  - destruct s as [|c r]; [done|]. simpl.
    destruct (decide (c = "0"%char)) as [->|]; [by destruct (Hs r)|done].
  - exact IH.
Qed.

(** A string of decimal digits is what [normalizePhone] works on: nothing is
    trimmed, no prefix is cut and no character is removed. *)
Lemma normalizePhone_decimal env s :
  decimal s -> s <> EmptyString ->
  Phone.normalizePhone env (Some s) = Some (Phone.countryCode env +:+ Js.stripLeading "0" s).
Proof.
  intros Hs Hne. rewrite normalizePhone_filtered by done.
  rewrite removeNot_fixed by (by apply decimal_allChars).
  unfold withCountryCode.
  destruct s as [|c r]; [done|]. apply decimal_cons in Hs as [Hc _].
  assert (Js.startsWith (String c r) "+" = false) as ->; [|done].
  simpl in Hc. set_unfold. by repeat (destruct Hc as [->|Hc]; [done|]).
Qed.

(** C6. An input without a leading [+] gets the configured country code,
    [process.env.DEFAULT_COUNTRY_CODE], or [+1] when none is configured, in
    front of what is left of it once its leading zeros are removed; zeros
    further inside stay.  In general: when what is left of the input after
    removing every character other than digits and [+] does not start with
    [+], the result is the country code followed by that remainder without
    its leading zeros.  An input that starts with [+] followed by digits is
    returned unchanged.  With the default code, ["0455123456"] gives
    ["+1455123456"] and ["+14155551234"] is returned unchanged. *)
Theorem normalizePhone_country_code :
  (forall env raw,
      raw <> EmptyString ->
      Js.startsWith (Js.removeNot Phone.isPhoneChar raw) "+" = false ->
      let rest := Js.stripLeading "0" (Js.removeNot Phone.isPhoneChar raw) in
      Phone.normalizePhone env (Some raw) = Some (Phone.countryCode env +:+ rest)
      /\ Js.startsWith rest "0" = false)
  /\ (forall env cc k digits,
         DEFAULT_COUNTRY_CODE env = Some cc -> cc <> EmptyString ->
         decimal digits -> noLeadingZero digits ->
         zeros k +:+ digits <> EmptyString ->
         Phone.normalizePhone env (Some (zeros k +:+ digits)) = Some (cc +:+ digits))
  /\ (forall env k digits,
         DEFAULT_COUNTRY_CODE env = None \/ DEFAULT_COUNTRY_CODE env = Some EmptyString ->
         decimal digits -> noLeadingZero digits ->
         zeros k +:+ digits <> EmptyString ->
         Phone.normalizePhone env (Some (zeros k +:+ digits)) = Some ("+1" +:+ digits))
  /\ (forall env digits,
         decimal digits ->
         Phone.normalizePhone env (Some ("+" +:+ digits)) = Some ("+" +:+ digits))
  /\ Phone.normalizePhone defaultEnv (Some "0455123456") = Some "+1455123456"
  /\ Phone.normalizePhone defaultEnv (Some "+14155551234") = Some "+14155551234"
  /\ Phone.normalizePhone (envWithCode "+91") (Some "0455123456") = Some "+91455123456"
  /\ Phone.normalizePhone (envWithCode "+91") (Some "+14155551234") = Some "+14155551234"
  /\ Phone.normalizePhone defaultEnv (Some "0040501230") = Some "+140501230".
Proof.
  split; [|split; [|split; [|split; [|done]]]].
  - intros env raw Hne Hplus rest. split.
    + rewrite normalizePhone_filtered by done. unfold withCountryCode. by rewrite Hplus.
    + apply stripLeading_no_leading.
  - intros env cc k digits Hcc Hne Hd Hz Hraw.
    rewrite normalizePhone_decimal by (by try apply zeros_decimal).
    rewrite stripLeading_zeros by done.
    unfold Phone.countryCode. rewrite Hcc. simpl. by rewrite decide_False.
  - intros env k digits Hcc Hd Hz Hraw.
    rewrite normalizePhone_decimal by (by try apply zeros_decimal).
    rewrite stripLeading_zeros by done.
    unfold Phone.countryCode. by destruct Hcc as [-> | ->].
  - intros env digits Hd.
    rewrite normalizePhone_filtered by done.
    unfold withCountryCode. simpl.
    by rewrite removeNot_fixed by (by apply decimal_allChars).
Qed.

Lemma normalizePhone_country_code_witness :
  Phone.normalizePhone (envWithCode "+44") (Some "007911123456")
  = Some "+447911123456".
Proof.
  apply (proj1 (proj2 normalizePhone_country_code) (envWithCode "+44") "+44" 2%nat "7911123456").
  - reflexivity.
  - discriminate.
  - repeat (apply decimal_cons; split; [simpl; set_solver|]). constructor.
  - intros r. discriminate.
  - discriminate.
Defined.

(** ** Orders *)

Lemma findIndex_Some id os idx :
  findIndex id os = Some idx ->
  exists o, os !! idx = Some o /\ Order.id o = id
            /\ forall j o', os !! j = Some o' -> (j < idx)%nat -> Order.id o' <> id.
Proof.
  unfold findIndex. destruct (list_find _ os) as [[i o]|] eqn:E; [|done].
  intros [= <-]. apply list_find_Some in E as (? & ? & ?). eauto.
Qed.

Lemma findIndex_None id os :
  findIndex id os = None -> forall o, o ∈ os -> Order.id o <> id.
Proof.
  unfold findIndex. destruct (list_find _ os) as [[i o]|] eqn:E; [done|].
  intros _ o Ho. apply list_find_None in E.
  by eapply (proj1 (Forall_forall _ _) E).
Qed.

(** What [patchOrder] does to the list of orders. *)
Lemma patchOrder_orders now id status st idx :
  findIndex id (orders st) = Some idx ->
  orders (patchOrder now id status st).2
  = if missing status then orders st
    else alter (Order.setStatus (Js.strOr status EmptyString) now) idx (orders st).
Proof.
  intros Hidx. unfold patchOrder. rewrite Hidx.
  destruct status as [s|]; simpl.
  - destruct (decide (s = "")) as [->|Hs]; simpl.
    + by destruct (orders st !! idx).
    + rewrite bool_decide_eq_false_2 by done.
      by destruct (alter _ idx (orders st) !! idx).
  - by destruct (orders st !! idx).
Qed.

(** C1, as stated, fails: a PATCH with status [PENDING] on a [COMPLETED]
    order leaves it [PENDING]. *)
Lemma completed_status_overwritten :
  ~ (forall now id status st idx o o',
        orders st !! idx = Some o -> Order.id o = id ->
        Order.status o = "COMPLETED" ->
        orders (patchOrder now id status st).2 !! idx = Some o' ->
        Order.status o' = "COMPLETED").
Proof.
  intros H.
  pose (o := {| Order.id := "ORD-1"; Order.tableNumber := Some 4;
                Order.customerName := "Guest"; Order.items := [line 30 5];
                Order.totalAmount := 150; Order.status := "COMPLETED";
                Order.createdAt := 1000; Order.updatedAt := Some 2000 |}).
  specialize (H 3000 "ORD-1" (Some "PENDING") (withOrders emptyStore [o]) 0%nat o
                (Order.setStatus "PENDING" 3000 o) eq_refl eq_refl eq_refl eq_refl).
  discriminate H.
Qed.

(** C1, amended. A status update that targets a [COMPLETED] order replies
    with that order and leaves its status equal to [status || "COMPLETED"]:
    the requested status when one is given and not empty, [COMPLETED]
    otherwise. *)
Theorem patchOrder_completed now id status st idx o :
  findIndex id (orders st) = Some idx ->
  orders st !! idx = Some o ->
  Order.status o = "COMPLETED" ->
  exists o',
    (patchOrder now id status st).1 = Json o'
    /\ orders (patchOrder now id status st).2 !! idx = Some o'
    /\ Order.id o' = Order.id o
    /\ Order.status o' = Js.strOr status "COMPLETED".
Proof.
  intros Hidx Ho Hst. unfold patchOrder. rewrite Hidx.
  destruct status as [s|]; simpl.
  - destruct (decide (s = "")) as [->|Hs]; simpl.
    + rewrite Ho. simpl. eauto.
    + rewrite list_lookup_alter, Ho, decide_True by done. simpl.
      rewrite list_lookup_alter, Ho, decide_True by done.
      eexists; repeat split.
  - rewrite Ho. simpl. eauto.
Qed.

Lemma patchOrder_completed_witness :
  exists o',
    (patchOrder 3000 "ORD-7" (Some "READY")
       (withOrders emptyStore
          [ {| Order.id := "ORD-7"; Order.tableNumber := None;
               Order.customerName := "Guest"; Order.items := [line 20 2];
               Order.totalAmount := 40; Order.status := "COMPLETED";
               Order.createdAt := 7; Order.updatedAt := Some 9 |} ])).2
    = withOrders emptyStore [o']
    /\ Order.status o' = "READY".
Proof.
  destruct (patchOrder_completed 3000 "ORD-7" (Some "READY")
              (withOrders emptyStore
                 [ {| Order.id := "ORD-7"; Order.tableNumber := None;
                      Order.customerName := "Guest"; Order.items := [line 20 2];
                      Order.totalAmount := 40; Order.status := "COMPLETED";
                      Order.createdAt := 7; Order.updatedAt := Some 9 |} ])
              0%nat _ eq_refl eq_refl eq_refl) as (o' & _ & Hl & _ & Hs).
  exists o'. split; [|exact Hs].
  vm_compute in Hl. injection Hl as <-. reflexivity.
Defined.

(** C7. A request whose [items] is missing, not an array or empty is
    answered 400 by both [POST /orders] and [POST /bills], and the store is
    the same after the call: nothing is appended. *)
Theorem empty_items_rejected env clock clock' (ob : OrderBody) (bb : BillBody) st :
  emptyItems (ob_items ob) ->
  emptyItems (bb_items bb) ->
  postOrders clock ob st = (Failure 400 "No items in order", st)
  /\ postBills env clock' bb st = (Failure 400 "No items to bill", st).
Proof.
  unfold postOrders, postBills.
  intros [->|[->| ->]] [->|[->| ->]]; done.
Qed.

Lemma empty_items_rejected_witness :
  postOrders {| idTime := 5; createdTime := 5 |}
    {| ob_tableNumber := Some 2; ob_customerName := None;
       ob_items := ItemsArray []; ob_totalAmount := Some 10 |} emptyStore
  = (Failure 400 "No items in order", emptyStore)
  /\ postBills defaultEnv {| idTime := 6; createdTime := 7 |}
       {| bb_tableNumber := Some 2; bb_customerName := None;
          bb_customerPhone := None; bb_items := ItemsArray [] |} emptyStore
     = (Failure 400 "No items to bill", emptyStore).
Proof.
  apply empty_items_rejected; right; right; reflexivity.
Defined.

(** ** Sums of lines *)

Lemma fold_left_add {A} (f : A -> Z) (l : list A) (a : Z) :
  fold_left (fun s x => s + f x) l a = a + Zsum (map f l).
Proof.
  revert a. induction l as [|x l IH]; intros a; simpl; [lia|].
  rewrite IH. lia.
Qed.

Lemma sumItems_lineTotal items : sumItems items = Zsum (map Item.lineTotal items).
Proof. unfold sumItems. by rewrite fold_left_add. Qed.

Lemma lineTotal_amount it : wellFormedItem it -> Item.lineTotal it = amount it.
Proof.
  intros (p & q & Hp & Hq & ? & ?). unfold Item.lineTotal, amount.
  rewrite Hp, Hq. simpl. destruct (decide (p = 0)) as [->|]; [|by rewrite decide_False by lia].
  by rewrite decide_False by lia.
Qed.

Lemma sumItems_amount items :
  Forall wellFormedItem items -> sumItems items = Zsum (map amount items).
Proof.
  rewrite sumItems_lineTotal. induction 1 as [|it l Hit _ IH]; simpl; [done|].
  by rewrite IH, lineTotal_amount.
Qed.




(** ** Binary64

    Rounding to 53 bits as [SpecFloat] defines it, followed through the
    conversion of an integer and through one product. *)

Module Float64Facts.
Import Stdlib.Floats.Floats.

Lemma digits_log2 p : Z.pos (digits2_pos p) = Z.log2 (Z.pos p) + 1.
Proof.
  assert (H : forall q, digits2_pos q = Pos.size q) by (induction q; simpl; congruence).
  destruct p; simpl; rewrite ?H; lia.
Qed.

Lemma digits_unique p k :
  2 ^ (k - 1) <= Z.pos p < 2 ^ k -> Z.pos (digits2_pos p) = k.
Proof.
  intros Hp. rewrite digits_log2.
  assert (0 < k).
  { destruct (Z.lt_trichotomy k 0) as [?|[->|?]]; [|simpl in Hp; lia|lia].
    rewrite (Z.pow_neg_r 2 k) in Hp by lia. lia. }
  rewrite (Z.log2_unique (Z.pos p) (k - 1)); [lia|lia|].
  replace (Z.succ (k - 1)) with k by lia. exact Hp.
Qed.

Lemma iter_xO p k : Z.pos (Pos.iter xO p k) = Z.pos p * 2 ^ Z.pos k.
Proof.
  revert p. induction k using Pos.peano_ind; intros p.
  - simpl. lia.
  - rewrite Pos.iter_succ, Pos2Z.inj_succ, Z.pow_succ_r by lia.
    rewrite Pos2Z.inj_xO, IHk. lia.
Qed.

Lemma shr_1_m mrs : 0 <= shr_m mrs -> shr_m (shr_1 mrs) = shr_m mrs / 2.
Proof.
  destruct mrs as [m r s]. simpl. intros Hm.
  destruct m as [|[p|p|]|p]; cbn [shr_m shr_1]; try lia; try reflexivity.
  - apply Z.div_unique with (r := 1); lia.
  - apply Z.div_unique with (r := 0); lia.
Qed.

Lemma shr_iter_m p : forall mrs,
  0 <= shr_m mrs ->
  shr_m (iter_pos shr_1 p mrs) = shr_m mrs / 2 ^ Z.pos p.
Proof.
  assert (Hnn : forall q mrs, 0 <= shr_m mrs -> 0 <= shr_m (iter_pos shr_1 q mrs)).
  { induction q; intros mrs Hm; simpl.
    - apply IHq, IHq. rewrite shr_1_m by done. apply Z.div_pos; lia.
    - apply IHq, IHq, Hm.
    - rewrite shr_1_m by done. apply Z.div_pos; lia. }
  induction p; intros mrs Hm; simpl iter_pos.
  - rewrite IHp, IHp, shr_1_m; auto.
    + rewrite !Z.div_div by lia. f_equal.
      replace (Z.pos p~1) with (1 + Z.pos p + Z.pos p) by lia.
      rewrite !Z.pow_add_r by lia. change (2 ^ 1) with 2. lia.
    + rewrite shr_1_m by done. apply Z.div_pos; lia.
    + apply Hnn. rewrite shr_1_m by done. apply Z.div_pos; lia.
  - rewrite IHp, IHp; auto.
    rewrite !Z.div_div by lia. f_equal.
    replace (Z.pos p~0) with (Z.pos p + Z.pos p) by lia.
    rewrite !Z.pow_add_r by lia. reflexivity.
  - rewrite shr_1_m by done. reflexivity.
Qed.

Lemma round_nearest_even_cases m l :
  round_nearest_even m l = m \/ round_nearest_even m l = m + 1.
Proof. destruct l as [|[]]; simpl; auto. destruct (Z.even m); auto. Qed.

Lemma fexp_normal e : -1074 <= e - 53 -> SpecFloat.fexp prec emax e = e - 53.
Proof. unfold SpecFloat.fexp, SpecFloat.emin, prec, emax. lia. Qed.

Lemma binary_round_aux_exact sx m e :
  Z.pos (digits2_pos m) = 53 -> -1074 <= e <= 971 ->
  binary_round_aux prec emax sx (Z.pos m) e loc_Exact = S754_finite sx m e.
Proof.
  intros Hd He. unfold binary_round_aux, shr_fexp. cbn [Zdigits2].
  rewrite Hd, fexp_normal by lia.
  replace (53 + e - 53 - e) with 0 by lia. cbn [shr shr_record_of_loc shr_m loc_of_shr_record round_nearest_even Zdigits2].
  rewrite Hd, fexp_normal by lia.
  replace (53 + e - 53 - e) with 0 by lia. cbn [shr shr_record_of_loc shr_m].
  change (emax - prec) with 971.
  destruct (Z.leb_spec e 971); [done|lia].
Qed.

Lemma digits_bounds p :
  2 ^ (Z.pos (digits2_pos p) - 1) <= Z.pos p < 2 ^ Z.pos (digits2_pos p).
Proof.
  rewrite digits_log2. replace (Z.log2 (Z.pos p) + 1 - 1) with (Z.log2 (Z.pos p)) by lia.
  replace (Z.log2 (Z.pos p) + 1) with (Z.succ (Z.log2 (Z.pos p))) by lia.
  apply Z.log2_spec. lia.
Qed.

Lemma pow2_split a b : 0 <= a -> 0 <= b -> 2 ^ (a + b) = 2 ^ a * 2 ^ b.
Proof. intros. by rewrite Z.pow_add_r. Qed.

Lemma binary_round_small sx p :
  Z.pos (digits2_pos p) <= 53 ->
  exists m,
    binary_round prec emax sx p 0 = S754_finite sx m (Z.pos (digits2_pos p) - 53)
    /\ Z.pos m = Z.pos p * 2 ^ (53 - Z.pos (digits2_pos p))
    /\ Z.pos (digits2_pos m) = 53.
Proof.
  intros Hd. pose proof (digits_bounds p) as Hb.
  unfold binary_round, shl_align.
  remember (Z.pos (digits2_pos p)) as d eqn:Ed.
  rewrite fexp_normal by lia.
  replace (d + 0 - 53) with (d - 53) by lia.
  replace (d - 53 - 0) with (d - 53) by lia.
  destruct (d - 53) as [|k|k] eqn:Hk; [|lia|].
  - exists p. assert (d = 53) as -> by lia.
    split; [|split; [simpl; lia|done]].
    apply binary_round_aux_exact; [done|lia].
  - exists (Pos.iter xO p k).
    assert (Hm : Z.pos (Pos.iter xO p k) = Z.pos p * 2 ^ (53 - d)).
    { rewrite iter_xO. f_equal. f_equal. lia. }
    assert (Hdm : Z.pos (digits2_pos (Pos.iter xO p k)) = 53).
    { apply digits_unique. rewrite Hm.
      assert (2 ^ (d - 1) * 2 ^ (53 - d) = 2 ^ (53 - 1)) as <-
        by (rewrite <- pow2_split by lia; f_equal; lia).
      assert (2 ^ d * 2 ^ (53 - d) = 2 ^ 53) as <-
        by (rewrite <- pow2_split by lia; f_equal; lia).
      assert (0 < 2 ^ (53 - d)) by (apply Z.pow_pos_nonneg; lia). nia. }
    split; [|done].
    apply binary_round_aux_exact; [done|lia].
Qed.

Lemma binary_round_aux_inexact sx m e :
  53 < Z.pos (digits2_pos m) ->
  -1074 <= Z.pos (digits2_pos m) + e - 53 < 971 ->
  exists m' e',
    binary_round_aux prec emax sx (Z.pos m) e loc_Exact = S754_finite sx m' e'
    /\ e + (Z.pos (digits2_pos m) - 53) <= e' <= e + (Z.pos (digits2_pos m) - 53) + 1
    /\ Z.pos m / 2 ^ (Z.pos (digits2_pos m) - 53)
       <= Z.pos m' * 2 ^ (e' - (e + (Z.pos (digits2_pos m) - 53)))
       <= Z.pos m / 2 ^ (Z.pos (digits2_pos m) - 53) + 1.
Proof.
  intros Hd He. pose proof (digits_bounds m) as Hb.
  remember (Z.pos (digits2_pos m)) as d eqn:Ed.
  unfold binary_round_aux, shr_fexp. cbn [Zdigits2]. rewrite <- Ed.
  rewrite fexp_normal by lia.
  replace (d + e - 53 - e) with (d - 53) by lia.
  destruct (d - 53) as [|k|k] eqn:Hk; [lia| |lia].
  cbn [shr shr_record_of_loc].
  set (mrs := iter_pos shr_1 k _).
  assert (Hq : shr_m mrs = Z.pos m / 2 ^ Z.pos k).
  { unfold mrs. by rewrite shr_iter_m. }
  assert (Hpow : 2 ^ d = 2 ^ Z.pos k * 2 ^ 53).
  { rewrite <- pow2_split by lia. f_equal. lia. }
  assert (Hpow' : 2 ^ (d - 1) = 2 ^ Z.pos k * 2 ^ 52).
  { rewrite <- pow2_split by lia. f_equal. lia. }
  assert (Hk0 : 0 < 2 ^ Z.pos k) by (apply Z.pow_pos_nonneg; lia).
  assert (Hqb : 2 ^ 52 <= Z.pos m / 2 ^ Z.pos k < 2 ^ 53).
  { split; [apply Z.div_le_lower_bound; lia|apply Z.div_lt_upper_bound; lia]. }
  set (r := round_nearest_even (shr_m mrs) (loc_of_shr_record mrs)).
  assert (Hr : r = Z.pos m / 2 ^ Z.pos k \/ r = Z.pos m / 2 ^ Z.pos k + 1).
  { unfold r. rewrite <- Hq. apply round_nearest_even_cases. }
  clearbody r. clear Hq mrs.
  destruct r as [|r|r]; [lia| |lia].
  cbn [Zdigits2].
  destruct (decide (Z.pos r < 2 ^ 53)) as [Hlt|Hge].
  - assert (Hdr : Z.pos (digits2_pos r) = 53) by (apply digits_unique; lia).
    rewrite Hdr, fexp_normal by lia.
    replace (53 + (e + Z.pos k) - 53 - (e + Z.pos k)) with 0 by lia.
    cbn [shr shr_record_of_loc shr_m]. change (emax - prec) with 971.
    destruct (Z.leb_spec (e + Z.pos k) 971); [|lia].
    exists r, (e + Z.pos k). split; [done|]. split; [lia|].
    replace (e + Z.pos k - (e + Z.pos k)) with 0 by lia. simpl (2 ^ 0). lia.
  - assert (Z.pos r = 2 ^ 53) as Hr53 by lia.
    assert (r = 9007199254740992%positive) as -> by (simpl in Hr53; lia).
    change (Z.pos (digits2_pos 9007199254740992)) with 54.
    rewrite fexp_normal by lia.
    replace (54 + (e + Z.pos k) - 53 - (e + Z.pos k)) with 1 by lia.
    cbn [shr shr_record_of_loc]. change (emax - prec) with 971.
    change (shr_m (iter_pos shr_1 1 _)) with 4503599627370496.
    cbv iota beta.
    destruct (Z.leb_spec (e + Z.pos k + 1) 971); [|lia].
    exists 4503599627370496%positive, (e + Z.pos k + 1). split; [done|]. split; [lia|].
    replace (e + Z.pos k + 1 - (e + Z.pos k)) with 1 by lia.
    change (Z.pos 4503599627370496 * 2 ^ 1) with (2 ^ 53). lia.
Qed.

Lemma round_window s X W c D h k G P M :
  0 < s -> 0 < X -> 0 < W -> 0 <= c -> 0 < h -> D = 2 * h ->
  D * k <= s + h < D * k + D ->
  D * M = s * X * (W + c) ->
  2 * G * P = W * X -> 0 < P -> 0 < G ->
  P <= 2 * s * X ->
  (c + 2 * D) * s < W ->
  (2 * k - 1) * G <= M / P /\ M / P + 1 < (2 * k + 1) * G.
Proof.
  intros Hs HX HW Hc Hh HD Hk HM HG HP HG0 HPs Hcs.
  assert (HWX : 0 < W * X) by nia.
  split.
  - apply Z.div_le_lower_bound; [done|].
    assert (D * (P * ((2 * k - 1) * G)) <= D * M); [|nia].
    rewrite HM.
    replace (D * (P * ((2 * k - 1) * G))) with ((D * k - h) * (W * X)) by (subst D; nia).
    assert (s * X * c >= 0) by nia.
    assert ((D * k - h) * (W * X) <= s * (W * X)) by (apply Z.mul_le_mono_nonneg_r; lia).
    nia.
  - assert (M / P < (2 * k + 1) * G - 1); [|lia].
    apply Z.div_lt_upper_bound; [done|].
    assert (D * M < D * (P * ((2 * k + 1) * G - 1))); [|nia].
    rewrite HM.
    replace (D * (P * ((2 * k + 1) * G - 1))) with ((D * k + h) * (W * X) - D * P)
      by (subst D; nia).
    assert ((s + 1) * (W * X) <= (D * k + h) * (W * X))
      by (apply Z.mul_le_mono_nonneg_r; lia).
    assert (D * P <= 2 * D * (s * X)) by nia.
    assert ((c + 2 * D) * s * X < W * X) by (apply Z.mul_lt_mono_pos_r; lia).
    nia.
Qed.

Lemma Prim2SF_ofZ_small sx p :
  Z.pos (digits2_pos p) <= 53 ->
  exists m,
    Prim2SF (SF2Prim (binary_round prec emax sx p 0))
    = S754_finite sx m (Z.pos (digits2_pos p) - 53)
    /\ Z.pos m = Z.pos p * 2 ^ (53 - Z.pos (digits2_pos p))
    /\ Z.pos (digits2_pos m) = 53.
Proof.
  intros Hd. destruct (binary_round_small sx p Hd) as (m & -> & Hm & Hdm).
  exists m. split; [|done].
  apply Prim2SF_SF2Prim.
  unfold valid_binary, bounded, canonical_mantissa.
  rewrite Hdm, fexp_normal by lia. change (emax - prec) with 971.
  apply andb_true_intro. split; [apply Z.eqb_eq|apply Z.leb_le]; lia.
Qed.

Lemma mathRound_mul (s : positive) rate mc w D h c :
  Z.pos s < 2 ^ 51 ->
  Prim2SF rate = S754_finite false mc (- w) ->
  Z.pos (digits2_pos mc) = 53 ->
  56 <= w <= 60 ->
  D * Z.pos mc = 2 ^ w + c -> D = 2 * h -> 0 < h -> 0 <= c ->
  (c + 2 * D) * 2 ^ 51 <= 2 ^ w ->
  Float64.mathRound (PrimFloat.mul (Float64.ofZ (Z.pos s)) rate) = Some ((Z.pos s + h) / D).
Proof.
  intros Hs Hrate Hdc Hw HD Hh Hh0 Hc Hbound.
  pose proof (digits_bounds s) as Hsb.
  assert (Hds : Z.pos (digits2_pos s) <= 51).
  { destruct (Z.le_gt_cases (Z.pos (digits2_pos s)) 51) as [|Hgt]; [done|].
    assert (2 ^ 51 <= 2 ^ (Z.pos (digits2_pos s) - 1))
      by (apply Z.pow_le_mono_r; lia). lia. }
  destruct (Prim2SF_ofZ_small false s ltac:(lia)) as (m & Hof & Hm & Hdm).
  unfold Float64.mathRound, Float64.ofZ. cbn [binary_normalize].
  rewrite mul_spec, Hof, Hrate. cbn [SF64mul SFmul xorb].
  remember (Z.pos (digits2_pos s)) as dg eqn:Edg.
  pose proof (digits_bounds m) as Hmb. rewrite Hdm in Hmb.
  pose proof (digits_bounds mc) as Hcb. rewrite Hdc in Hcb.
  pose proof (digits_bounds (m * mc)) as HMb.
  remember (Z.pos (digits2_pos (m * mc))) as d eqn:Ed.
  rewrite Pos2Z.inj_mul in HMb.
  assert (HM1 : 2 ^ 104 <= Z.pos m * Z.pos mc).
  { change (2 ^ 104) with (2 ^ (53 - 1) * 2 ^ (53 - 1)). nia. }
  assert (HM2 : Z.pos m * Z.pos mc < 2 ^ 106).
  { change (2 ^ 106) with (2 ^ 53 * 2 ^ 53). nia. }
  assert (Hd : 105 <= d <= 106).
  { split.
    - destruct (Z.le_gt_cases 105 d) as [|Hlt]; [done|].
      assert (2 ^ d <= 2 ^ 104) by (apply Z.pow_le_mono_r; lia). lia.
    - destruct (Z.le_gt_cases d 106) as [|Hgt]; [done|].
      assert (2 ^ 106 <= 2 ^ (d - 1)) by (apply Z.pow_le_mono_r; lia). lia. }
  destruct (binary_round_aux_inexact false (m * mc) (dg - 53 + - w))
    as (m' & e' & -> & He' & Hr); rewrite <- ?Ed; [lia|lia|].
  rewrite <- Ed, Pos2Z.inj_mul in Hr.
  set (g := w + 53 - dg - (d - 53)).
  assert (Hg : 3 <= g) by (unfold g; lia).
  replace (dg - 53 + - w + (d - 53)) with (- g) in * by (unfold g; lia).
  destruct (Z.leb_spec 0 e') as [|_]; [lia|].
  f_equal.
  set (r := Z.pos m' * 2 ^ (e' - - g)) in *.
  assert (Hval : (2 * Z.pos m' + 2 ^ (- e')) / (2 * 2 ^ (- e'))
                 = (2 * r + 2 * 2 ^ (g - 1)) / (2 * (2 * 2 ^ (g - 1)))).
  { assert (Hgg : 2 * 2 ^ (g - 1) = 2 ^ (e' - - g) * 2 ^ (- e')).
    { rewrite <- pow2_split by lia. change 2 with (2 ^ 1) at 1.
      rewrite <- pow2_split by lia. f_equal. lia. }
    rewrite Hgg. unfold r.
    replace (2 * (Z.pos m' * 2 ^ (e' - - g)) + 2 ^ (e' - - g) * 2 ^ (- e'))
      with (2 ^ (e' - - g) * (2 * Z.pos m' + 2 ^ (- e'))) by lia.
    replace (2 * (2 ^ (e' - - g) * 2 ^ (- e')))
      with (2 ^ (e' - - g) * (2 * 2 ^ (- e'))) by lia.
    assert (0 < 2 ^ (e' - - g)) by (apply Z.pow_pos_nonneg; lia).
    assert (0 < 2 ^ (- e')) by (apply Z.pow_pos_nonneg; lia).
    rewrite Z.div_mul_cancel_l by lia. done. }
  rewrite Hval. clearbody r.
  set (k := (Z.pos s + h) / D).
  assert (Hk : D * k <= Z.pos s + h < D * k + D).
  { unfold k. pose proof (Z.mul_div_le (Z.pos s + h) D ltac:(lia)).
    pose proof (Z.mul_succ_div_gt (Z.pos s + h) D ltac:(lia)). lia. }
  assert (HX : 0 < 2 ^ (53 - dg)) by (apply Z.pow_pos_nonneg; lia).
  assert (HG : 0 < 2 ^ (g - 1)) by (apply Z.pow_pos_nonneg; lia).
  assert (HP : 0 < 2 ^ (d - 53)) by (apply Z.pow_pos_nonneg; lia).
  assert (HW : 0 < 2 ^ w) by (apply Z.pow_pos_nonneg; lia).
  destruct (round_window (Z.pos s) (2 ^ (53 - dg)) (2 ^ w) c D h k
              (2 ^ (g - 1)) (2 ^ (d - 53)) (Z.pos m * Z.pos mc)) as [Hlo Hhi];
    try done.
  - rewrite Hm. nia.
  - change 2 with (2 ^ 1) at 1. rewrite <- !pow2_split by lia. f_equal. unfold g. lia.
  - assert (2 ^ (d - 53) <= 2 ^ 53) by (apply Z.pow_le_mono_r; lia).
    assert (2 ^ 53 = 2 ^ dg * 2 ^ (53 - dg)) as Hsplit
      by (rewrite <- pow2_split by lia; f_equal; lia).
    assert (2 ^ dg = 2 * 2 ^ (dg - 1)) as Hdg.
    { change 2 with (2 ^ 1) at 2. rewrite <- pow2_split by lia. f_equal. lia. }
    nia.
  - nia.
  - symmetry. apply Z.div_unique with (r := 2 * r + 2 * 2 ^ (g - 1) - 2 * (2 * 2 ^ (g - 1)) * k);
      nia.
Qed.


Lemma taxOf_div s : taxOf s = (s + 10) / 20.
Proof.
  unfold taxOf, Js.roundDiv.
  replace (2 * (s * 5) + 100) with (10 * (s + 10)) by lia.
  replace (2 * 100) with (10 * 20) by lia.
  by rewrite Z.div_mul_cancel_l.
Qed.

Lemma serviceOf_div s : serviceOf s = (s + 25) / 50.
Proof.
  unfold serviceOf, Js.roundDiv.
  replace (2 * (s * 2) + 100) with (4 * (s + 25)) by lia.
  replace (2 * 100) with (4 * 50) by lia.
  by rewrite Z.div_mul_cancel_l.
Qed.

(** Below 2^51 the rounded products of doubles are the exact roundings. *)
Lemma tax_small s : 0 <= s < 2 ^ 51 -> Float64.tax s = Some (taxOf s).
Proof.
  intros [Hs Hlt]. rewrite taxOf_div. destruct s as [|p|p]; [by vm_compute| |lia].
  apply mathRound_mul with (mc := 7205759403792794%positive) (w := 57) (c := 8);
    try done; try lia.
Qed.

Lemma service_small s : 0 <= s < 2 ^ 51 -> Float64.service s = Some (serviceOf s).
Proof.
  intros [Hs Hlt]. rewrite serviceOf_div. destruct s as [|p|p]; [by vm_compute| |lia].
  apply mathRound_mul with (mc := 5764607523034235%positive) (w := 58) (c := 6);
    try done; try lia.
Qed.

(** An integer below 2^53 is a double: its mantissa and exponent. *)
Lemma Prim2SF_ofZ_pos p :
  Z.pos p < 2 ^ 53 ->
  exists m,
    Prim2SF (Float64.ofZ (Z.pos p)) = S754_finite false m (Z.pos (digits2_pos p) - 53)
    /\ Z.pos m = Z.pos p * 2 ^ (53 - Z.pos (digits2_pos p))
    /\ Z.pos (digits2_pos p) <= 53.
Proof.
  intros Hp. pose proof (digits_bounds p) as Hb.
  assert (Hd : Z.pos (digits2_pos p) <= 53).
  { destruct (Z.le_gt_cases (Z.pos (digits2_pos p)) 53) as [|Hgt]; [done|].
    assert (2 ^ 53 <= 2 ^ (Z.pos (digits2_pos p) - 1)) by (apply Z.pow_le_mono_r; lia).
    lia. }
  destruct (Prim2SF_ofZ_small false p Hd) as (m & Hm & Hv & _).
  exists m. by repeat split.
Qed.

Lemma truthy_ofZ p : Z.pos p < 2 ^ 53 -> Float64.truthy (Float64.ofZ (Z.pos p)) = true.
Proof.
  intros Hp. destruct (Prim2SF_ofZ_pos p Hp) as (m & Hm & _).
  unfold Float64.truthy, is_nan, is_zero. rewrite !eqb_spec, Hm.
  change (Prim2SF zero) with (S754_zero false).
  unfold SFeqb. cbn [SFcompare]. by rewrite Z.compare_refl, Pos.compare_cont_refl.
Qed.

Lemma atLeast_ofZ p c :
  Z.pos p < 2 ^ 53 -> 0 <= c < 2 ^ 53 ->
  Float64.atLeast (Float64.ofZ (Z.pos p)) c = (Z.pos p <=? c).
Proof.
  intros Hp Hc. destruct (Prim2SF_ofZ_pos p Hp) as (m & Hm & Hv & Hd).
  unfold Float64.atLeast. rewrite leb_spec, Hm.
  destruct c as [|q|q]; [| |lia].
  - by change (Prim2SF (Float64.ofZ 0)) with (S754_zero false).
  - destruct (Prim2SF_ofZ_pos q ltac:(lia)) as (n & -> & Hw & He).
    unfold SFleb. cbn [SFcompare].
    pose proof (digits_bounds p) as Hbp. pose proof (digits_bounds q) as Hbq.
    set (dp := Z.pos (digits2_pos p)) in *. set (dq := Z.pos (digits2_pos q)) in *.
    destruct (Z.compare_spec (dp - 53) (dq - 53)) as [Heq|Hlt|Hgt].
    + assert (dp = dq) as Hdd by lia. rewrite Hdd in Hv.
      assert (0 < 2 ^ (53 - dq)) by (apply Z.pow_pos_nonneg; lia).
      rewrite Pos.compare_cont_spec. cbn [Pos.switch_Eq].
      change (m ?= n)%positive with (Z.pos m ?= Z.pos n).
      destruct (Z.compare_spec (Z.pos m) (Z.pos n)); symmetry;
        [apply Z.leb_le|apply Z.leb_le|apply Z.leb_gt]; nia.
    + symmetry. apply Z.leb_le.
      assert (2 ^ dp <= 2 ^ (dq - 1)) by (apply Z.pow_le_mono_r; lia). lia.
    + symmetry. apply Z.leb_gt.
      assert (2 ^ dq <= 2 ^ (dp - 1)) by (apply Z.pow_le_mono_r; lia). lia.
Qed.

End Float64Facts.

(** ** Bills *)

Lemma amounts_nonneg items : Forall wellFormedItem items -> 0 <= Zsum (map amount items).
Proof.
  induction 1 as [|it l (p & q & Hp & Hq & ? & ?) _ IH]; simpl; [done|].
  unfold amount at 1. rewrite Hp, Hq. simpl. nia.
Qed.

Lemma taxOf_nearest s : 100 * taxOf s - 50 <= 5 * s < 100 * taxOf s + 50.
Proof.
  unfold taxOf, Js.roundDiv.
  pose proof (Z.mul_div_le (2 * (s * 5) + 100) (2 * 100)).
  pose proof (Z.mul_succ_div_gt (2 * (s * 5) + 100) (2 * 100)). lia.
Qed.

Lemma serviceOf_nearest s : 100 * serviceOf s - 50 <= 2 * s < 100 * serviceOf s + 50.
Proof.
  unfold serviceOf, Js.roundDiv.
  pose proof (Z.mul_div_le (2 * (s * 2) + 100) (2 * 100)).
  pose proof (Z.mul_succ_div_gt (2 * (s * 2) + 100) (2 * 100)). lia.
Qed.

(** C2, as stated, fails: the tax is the rounding of a product of doubles,
    which is not always the nearest integer to 5 % of the subtotal.  One
    line of 6800000000000009 × 1 has 5 % = 340000000000000.45; the double
    nearest to the product is 340000000000000.5 and the bill carries a tax
    of 340000000000001. *)
Lemma tax_of_large_subtotal_not_nearest :
  ~ (forall env clock body st items,
        bb_items body = ItemsArray items ->
        items <> [] ->
        Forall wellFormedItem items ->
        missing (bb_customerPhone body) = true
          \/ Phone.isValidPhone env (bb_customerPhone body) = true ->
        exists bill,
          postBills env clock body st = (Json bill, withBills st (bills st ++ [bill]))
          /\ Bill.subtotal bill = Zsum (map amount items)
          /\ 100 * Bill.tax bill - 50 <= 5 * Bill.subtotal bill < 100 * Bill.tax bill + 50
          /\ 100 * Bill.service bill - 50 <= 2 * Bill.subtotal bill
              < 100 * Bill.service bill + 50
          /\ Bill.total bill = Bill.subtotal bill + Bill.tax bill + Bill.service bill).
Proof.
  intros H.
  destruct (H defaultEnv {| idTime := 1000; createdTime := 1000 |}
              {| bb_tableNumber := Some 3; bb_customerName := Some "Asha";
                 bb_customerPhone := None;
                 bb_items := ItemsArray [line 6800000000000009 1] |}
              emptyStore [line 6800000000000009 1] eq_refl ltac:(done))
    as (bill & Hpost & _ & Htax & _).
  - repeat constructor. eexists _, _. repeat split; simpl; lia.
  - by left.
  - apply (f_equal fst) in Hpost. vm_compute in Hpost.
    injection Hpost as <-. simpl in Htax. lia.
Qed.

(** C2, amended.  [POST /bills] with a non-empty array of lines that carry a
    non-negative price and a positive quantity (and a customer phone that is
    absent or valid), whose subtotal is below 2^51, appends and returns a
    bill with [subtotal] = the sum of [price × quantity], [tax] =
    [subtotal × 0.05] and [service] = [subtotal × 0.02] rounded to the
    nearest integer, a half going up, and
    [total = subtotal + tax + service].  One line of 120 × 2 gives 240, 12,
    5 and 257; one line of 20 × 2 gives 40, 2, 1 and 43. *)
Theorem postBills_arithmetic :
  (forall env clock body st items,
      bb_items body = ItemsArray items ->
      items <> [] ->
      Forall wellFormedItem items ->
      Zsum (map amount items) < 2 ^ 51 ->
      missing (bb_customerPhone body) = true
        \/ Phone.isValidPhone env (bb_customerPhone body) = true ->
      exists bill,
        postBills env clock body st = (Json bill, withBills st (bills st ++ [bill]))
        /\ Bill.items bill = items
        /\ Bill.subtotal bill = Zsum (map amount items)
        /\ 0 <= Bill.subtotal bill
        /\ Bill.tax bill = taxOf (Bill.subtotal bill)
        /\ Bill.service bill = serviceOf (Bill.subtotal bill)
        /\ 100 * Bill.tax bill - 50 <= 5 * Bill.subtotal bill < 100 * Bill.tax bill + 50
        /\ 100 * Bill.service bill - 50 <= 2 * Bill.subtotal bill < 100 * Bill.service bill + 50
        /\ Bill.total bill = Bill.subtotal bill + Bill.tax bill + Bill.service bill)
  /\ (forall env clock table customer st,
         billFigures (postBills env clock
                        {| bb_tableNumber := table; bb_customerName := customer;
                           bb_customerPhone := None;
                           bb_items := ItemsArray [line 120 2] |} st).1
         = Some (240, 12, 5, 257))
  /\ (forall env clock table customer st,
         billFigures (postBills env clock
                        {| bb_tableNumber := table; bb_customerName := customer;
                           bb_customerPhone := None;
                           bb_items := ItemsArray [line 20 2] |} st).1
         = Some (40, 2, 1, 43)).
Proof.
  split; [|split; intros; by vm_compute].
  intros env clock body st items Hitems Hne Hwf Hsmall Hphone.
  unfold postBills. rewrite Hitems. simpl.
  rewrite bool_decide_eq_false_2 by (by destruct items).
  assert (negb (missing (bb_customerPhone body))
          && negb (Phone.isValidPhone env (bb_customerPhone body)) = false) as ->.
  { destruct Hphone as [-> | ->]; [done|]. apply andb_false_r. }
  eexists. split; [reflexivity|]. simpl.
  rewrite (sumItems_amount items Hwf).
  pose proof (amounts_nonneg items Hwf) as Hpos.
  rewrite Float64Facts.tax_small, Float64Facts.service_small by done. simpl.
  pose proof (taxOf_nearest (Zsum (map amount items))).
  pose proof (serviceOf_nearest (Zsum (map amount items))).
  repeat split; try done; lia.
Qed.

Lemma postBills_arithmetic_witness :
  exists bill,
    postBills defaultEnv {| idTime := 1763184248360; createdTime := 1763184248361 |}
      {| bb_tableNumber := Some 4; bb_customerName := Some "h";
         bb_customerPhone := Some "+14155551234";
         bb_items := ItemsArray [line 30 5] |} emptyStore
    = (Json bill, withBills emptyStore [bill])
    /\ Bill.subtotal bill = 150 /\ Bill.tax bill = 8 /\ Bill.service bill = 3.
Proof.
  destruct (proj1 postBills_arithmetic defaultEnv
              {| idTime := 1763184248360; createdTime := 1763184248361 |}
              {| bb_tableNumber := Some 4; bb_customerName := Some "h";
                 bb_customerPhone := Some "+14155551234";
                 bb_items := ItemsArray [line 30 5] |} emptyStore [line 30 5]
              eq_refl ltac:(done))
    as (bill & Hpost & _ & Hsub & _ & Htax & Hserv & _).
  - repeat constructor; eexists _, _; repeat split; simpl; lia.
  - reflexivity.
  - right. reflexivity.
  - exists bill. split; [exact Hpost|]. rewrite Htax, Hserv, Hsub. by repeat split.
Defined.

(** ** One-time codes *)

Lemma pretty_N_go_nonempty x s : s <> EmptyString -> pretty_N_go x s <> EmptyString.
Proof.
  revert s. induction (N.lt_wf_0 x) as [x _ IH]; intros s Hs.
  destruct (decide (x = 0)%N) as [->|Hx]; [by rewrite pretty_N_go_0|].
  rewrite pretty_N_go_step by lia. apply IH; [apply N.div_lt; lia|done].
Qed.

Lemma pretty_N_nonempty (x : N) : pretty x <> EmptyString.
Proof.
  unfold pretty, pretty_N. destruct (decide (x = 0)%N); [done|].
  rewrite pretty_N_go_step by lia. by apply pretty_N_go_nonempty.
Qed.

Lemma pretty_Z_nonempty (x : Z) : pretty x <> EmptyString.
Proof.
  destruct x as [|p|p]; [done| |done]. apply (pretty_N_nonempty (Npos p)).
Qed.

Lemma otpCode_inj d1 d2 : otpCode d1 = otpCode d2 -> d1 = d2.
Proof. unfold otpCode. intros H%(inj pretty). lia. Qed.

Lemma otpCode_truthy d : Js.truthy (Js.Str (otpCode d)) = true.
Proof.
  simpl. destruct (decide (otpCode d = "")) as [E|]; [|done].
  by apply pretty_Z_nonempty in E.
Qed.

Lemma valid_not_missing env phone : Phone.isValidPhone env phone = true -> missing phone = false.
Proof. destruct phone as [[|a r]|]; done. Qed.

(** A successful [POST /otp] stores the code under the normalised phone. *)
Lemma postOtp_valid env now draw phone st :
  Phone.isValidPhone env phone = true ->
  postOtp env now draw phone st
  = (Json {| or_code := if exposeCode env then Some (otpCode draw) else None;
             or_phone := propertyKey (Phone.normalizePhone env phone) |},
     withOtps st (<[propertyKey (Phone.normalizePhone env phone)
                    := {| Otp.code := otpCode draw; Otp.createdAt := now |}]> (otps st))).
Proof.
  intros Hv. unfold postOtp. by rewrite (valid_not_missing _ _ Hv), Hv.
Qed.

(** C3, as stated, fails: when the two draws give the same code, the first
    code is the stored one and is accepted. *)
Lemma otp_first_code_accepted_when_redrawn :
  ~ (forall env phone now1 draw1 now2 draw2 st,
        Phone.isValidPhone env phone = true ->
        let st1 := (postOtp env now1 draw1 phone st).2 in
        let st2 := (postOtp env now2 draw2 phone st1).2 in
        (postOtpVerify env phone (Js.Str (otpCode draw1)) st2).1
        = Failure 400 "Invalid code").
Proof.
  intros H.
  specialize (H defaultEnv (Some "+14155551234") 10 234 20 234 emptyStore eq_refl).
  vm_compute in H. discriminate H.
Qed.

(** C3, amended. After two successive [POST /otp] calls for a valid phone
    whose draws differ, the store holds the second code for that phone and
    [POST /otp/verify] with the first code is answered 400 "Invalid code",
    the store staying as it is. *)
Theorem otp_overwrite env phone now1 draw1 now2 draw2 st :
  Phone.isValidPhone env phone = true ->
  draw1 <> draw2 ->
  let st1 := (postOtp env now1 draw1 phone st).2 in
  let st2 := (postOtp env now2 draw2 phone st1).2 in
  otps st2 !! propertyKey (Phone.normalizePhone env phone)
  = Some {| Otp.code := otpCode draw2; Otp.createdAt := now2 |}
  /\ postOtpVerify env phone (Js.Str (otpCode draw1)) st2
     = (Failure 400 "Invalid code", st2).
Proof.
  intros Hv Hne st1 st2. unfold st2, st1.
  rewrite !postOtp_valid by done. simpl.
  split; [by rewrite lookup_insert_eq|].
  unfold postOtpVerify.
  rewrite (valid_not_missing _ _ Hv), otpCode_truthy, Hv. simpl.
  rewrite lookup_insert_eq. simpl.
  rewrite decide_False; [done|].
  intros E. by apply otpCode_inj in E.
Qed.

Lemma otp_overwrite_witness :
  (postOtpVerify defaultEnv (Some "(415) 555-1234") (Js.Str (otpCode 234))
     (postOtp defaultEnv 20 8765 (Some "(415) 555-1234")
        (postOtp defaultEnv 10 234 (Some "(415) 555-1234") emptyStore).2).2).1
  = Failure 400 "Invalid code".
Proof.
  pose proof (otp_overwrite defaultEnv (Some "(415) 555-1234") 10 234 20 8765
                emptyStore eq_refl ltac:(done)) as [_ H].
  simpl in H. exact (f_equal fst H).
Defined.

(** C4. When [POST /otp/verify] succeeds, the record of the phone is
    deleted, and the same call repeated at once is answered 400
    "No OTP requested". *)
Theorem otp_single_use env phone code st body st' :
  postOtpVerify env phone code st = (Json body, st') ->
  body = propertyKey (Phone.normalizePhone env phone)
  /\ otps st' = delete body (otps st)
  /\ otps st' !! body = None
  /\ postOtpVerify env phone code st' = (Failure 400 "No OTP requested", st').
Proof.
  unfold postOtpVerify.
  destruct (missing phone || negb (Js.truthy code)) eqn:Hm; [done|].
  destruct (negb (Phone.isValidPhone env phone)) eqn:Hv; [done|].
  set (k := propertyKey (Phone.normalizePhone env phone)).
  destruct (otps st !! k) as [record|] eqn:Hk; [|done].
  destruct (decide (Otp.code record = Js.toString code)); [|done].
  intros [= <- <-]. simpl.
  by rewrite lookup_delete_eq.
Qed.

Lemma otp_single_use_witness :
  postOtpVerify defaultEnv (Some "+14155551234") (Js.Num 1234)
    (withOtps emptyStore ∅)
  = (Failure 400 "No OTP requested", withOtps emptyStore ∅).
Proof.
  exact (proj2 (proj2 (proj2
    (otp_single_use defaultEnv (Some "+14155551234") (Js.Num 1234)
       (postOtp defaultEnv 10 234 (Some "+14155551234") emptyStore).2
       "+14155551234" (withOtps emptyStore ∅) eq_refl)))).
Defined.

(** ** Daily report *)

Lemma within_spec lo hi b : within lo hi b = true <-> inWindow lo hi b.
Proof. unfold within, inWindow. rewrite andb_true_iff, !Z.leb_le. done. Qed.





(** Sums over buckets. *)













(** ** The roundings on binary64 *)

(** X17. For every subtotal below 2^51 the products [subtotal * 0.05] and
    [subtotal * 0.02] computed on doubles and rounded by [Math.round] are
    the tax and the service charge of the exact rounding [taxOf] and
    [serviceOf]. *)
Theorem binary64_rounding_agrees subtotal :
  0 <= subtotal < 2 ^ 51 ->
  Float64.tax subtotal = Some (taxOf subtotal)
  /\ Float64.service subtotal = Some (serviceOf subtotal).
Proof.
  intros H. split; [by apply Float64Facts.tax_small|by apply Float64Facts.service_small].
Qed.

Lemma binary64_rounding_agrees_witness :
  Float64.tax 150 = Some 8 /\ Float64.service 150 = Some 3.
Proof.
  pose proof (binary64_rounding_agrees 150 ltac:(lia)) as H.
  exact H.
Defined.

(** Near 2^53 the product of doubles is no longer close enough to the exact
    one: there [Math.round] on doubles and the exact rounding part. *)
Remark binary64_rounding_limit :
  Float64.tax 9007199254740009 <> Some (taxOf 9007199254740009).
Proof. vm_compute. discriminate. Qed.

(** * Further properties of the server *)

(** ** Phone keys *)

Lemma key_shape env raw :
  wellFormedCode env ->
  raw <> EmptyString ->
  exists n,
    Phone.normalizePhone env (Some raw) = Some n
    /\ Js.startsWith n "+" = true
    /\ allChars Phone.isPhoneChar n = true.
Proof.
  intros [Hplus Hchars] Hne. eexists. split; [by apply normalizePhone_filtered|].
  set (v := Js.removeNot Phone.isPhoneChar raw).
  assert (Hv : allChars Phone.isPhoneChar v = true) by apply removeNot_allChars.
  unfold withCountryCode. destruct (Js.startsWith v "+") eqn:E; [done|].
  cbn [negb]. split; [by apply startsWith_app|].
  rewrite allChars_app, Hchars. by apply allChars_stripLeading.
Qed.

Lemma key_of_digits env raw1 raw2 :
  raw1 <> EmptyString ->
  raw2 <> EmptyString ->
  Js.removeNot Phone.isPhoneChar raw1 = Js.removeNot Phone.isPhoneChar raw2 ->
  Phone.normalizePhone env (Some raw1) = Phone.normalizePhone env (Some raw2).
Proof.
  intros H1 H2 E. by rewrite !normalizePhone_filtered, E.
Qed.

(** X1. Under a country code that starts with [+] and holds digits and [+]
    only, every non-empty input has a key; the key starts with [+] and holds
    nothing but digits and [+]. *)
Theorem normalizePhone_shape env raw :
  wellFormedCode env ->
  raw <> EmptyString ->
  exists n,
    Phone.normalizePhone env (Some raw) = Some n
    /\ Js.startsWith n "+" = true
    /\ allChars Phone.isPhoneChar n = true.
Proof. apply key_shape. Qed.

Lemma normalizePhone_shape_witness :
  exists n,
    Phone.normalizePhone defaultEnv (Some "whatsapp: 0044 (20) 7946-0958") = Some n
    /\ Js.startsWith n "+" = true
    /\ allChars Phone.isPhoneChar n = true.
Proof. apply normalizePhone_shape; done. Defined.

(** X2. The key depends on the digits and [+] signs of the input only: two
    non-empty inputs that differ in spaces, punctuation, letters or a
    [whatsapp:] prefix have the same key. *)
Theorem normalizePhone_same_digits env raw1 raw2 :
  raw1 <> EmptyString ->
  raw2 <> EmptyString ->
  Js.removeNot Phone.isPhoneChar raw1 = Js.removeNot Phone.isPhoneChar raw2 ->
  Phone.normalizePhone env (Some raw1) = Phone.normalizePhone env (Some raw2).
Proof. apply key_of_digits. Qed.

Lemma normalizePhone_same_digits_witness :
  Phone.normalizePhone defaultEnv (Some "whatsapp:+1 (415) 555-1234")
  = Phone.normalizePhone defaultEnv (Some "+1.415.555.1234 ext").
Proof.
  apply normalizePhone_same_digits; [discriminate|discriminate|].
  vm_compute. reflexivity.
Defined.

Lemma isValidPhone_normalized_code env raw :
  wellFormedCode env ->
  Phone.isValidPhone env (Phone.normalizePhone env raw) = Phone.isValidPhone env raw.
Proof.
  intros Hwf. unfold Phone.isValidPhone at 1.
  by rewrite normalizePhone_idempotent_code.
Qed.

(** X3. Validity is a property of the key: an input is valid exactly when
    its key, given as input, is valid. *)
Theorem isValidPhone_normalized env raw :
  wellFormedCode env ->
  Phone.isValidPhone env (Phone.normalizePhone env raw) = Phone.isValidPhone env raw.
Proof. apply isValidPhone_normalized_code. Qed.

Lemma isValidPhone_normalized_witness :
  Phone.isValidPhone defaultEnv (Phone.normalizePhone defaultEnv (Some "555-1234"))
  = Phone.isValidPhone defaultEnv (Some "555-1234").
Proof. apply isValidPhone_normalized. done. Defined.

(** X4. The recipient handed to Twilio starts with [whatsapp:], is left
    alone when built twice, and normalises back to the key it was built
    from. *)
Theorem whatsappAddress_round_trip env raw n :
  wellFormedCode env ->
  Phone.normalizePhone env (Some raw) = Some n ->
  Js.startsWith (whatsappAddress n) "whatsapp:" = true
  /\ whatsappAddress (whatsappAddress n) = whatsappAddress n
  /\ Phone.normalizePhone env (Some (whatsappAddress n)) = Some n.
Proof.
  intros Hwf Hn.
  assert (Hne : raw <> EmptyString) by (by intros ->).
  destruct (key_shape env raw Hwf Hne) as (n' & Hn' & Hplus & Hchars).
  assert (n' = n) as -> by congruence.
  assert (Hnw : Js.startsWith n "whatsapp:" = false).
  { destruct n as [|c r]; [done|]. simpl in Hplus |- *.
    destruct (decide ("+"%char = c)) as [<-|]; done. }
  assert (Haddr : whatsappAddress n = "whatsapp:" +:+ n).
  { unfold whatsappAddress. by rewrite Hnw. }
  assert (Hstart : Js.startsWith (whatsappAddress n) "whatsapp:" = true).
  { rewrite Haddr. by apply startsWith_app. }
  split; [done|]. split.
  - unfold whatsappAddress at 1. by rewrite Hstart.
  - pose proof (normalizePhone_idempotent_code env (Some raw) Hwf) as Hfix.
    rewrite Hn in Hfix. etrans; [|exact Hfix].
    apply key_of_digits.
    + by rewrite Haddr.
    + by intros ->.
    + by rewrite Haddr.
Qed.

Lemma whatsappAddress_round_trip_witness :
  Phone.normalizePhone defaultEnv (Some (whatsappAddress "+14155551234"))
  = Some "+14155551234".
Proof.
  apply (whatsappAddress_round_trip defaultEnv "(415) 555-1234" "+14155551234");
    done.
Defined.

(** ** One-time codes, continued *)

Lemma allFrom_spec p n : forall s k,
  allFrom p s n = true -> s <= k < s + Z.of_nat n -> p k = true.
Proof.
  induction n as [|n IH]; intros s k H Hk; [lia|].
  simpl in H. apply andb_prop in H as [H0 H1].
  destruct (decide (k = s)) as [->|]; [done|].
  apply (IH (s + 1)); [done|lia].
Qed.

Lemma same_key_valid env phone phone' :
  Phone.normalizePhone env phone' = Phone.normalizePhone env phone ->
  Phone.isValidPhone env phone' = Phone.isValidPhone env phone.
Proof. intros H. unfold Phone.isValidPhone. by rewrite H. Qed.

(** X5. A code requested for a valid phone is accepted once, also when the
    phone is spelled differently in the verification, as long as both
    spellings have the same key; the record is gone afterwards. *)
Theorem otp_request_verify env now draw phone phone' st :
  Phone.isValidPhone env phone = true ->
  Phone.normalizePhone env phone' = Phone.normalizePhone env phone ->
  let key := propertyKey (Phone.normalizePhone env phone) in
  postOtpVerify env phone' (Js.Str (otpCode draw)) (postOtp env now draw phone st).2
  = (Json key, withOtps st (delete key (otps st))).
Proof.
  intros Hv Hkey key.
  assert (Hv' : Phone.isValidPhone env phone' = true)
    by (by rewrite (same_key_valid _ _ _ Hkey)).
  rewrite postOtp_valid by done. unfold postOtpVerify.
  rewrite (valid_not_missing _ _ Hv'), otpCode_truthy, Hv', Hkey. simpl.
  fold key. rewrite lookup_insert_eq. simpl.
  rewrite decide_True by done. unfold withOtps. simpl.
  by rewrite delete_insert_eq.
Qed.

Lemma otp_request_verify_witness :
  postOtpVerify defaultEnv (Some "whatsapp:+14155551234") (Js.Str (otpCode 4321))
    (postOtp defaultEnv 10 4321 (Some "(415) 555-1234") emptyStore).2
  = (Json "+14155551234", emptyStore).
Proof.
  apply (otp_request_verify defaultEnv 10 4321 (Some "(415) 555-1234")
           (Some "whatsapp:+14155551234") emptyStore); reflexivity.
Defined.

Lemma verify_wrong_code env phone code st record :
  otps st !! propertyKey (Phone.normalizePhone env phone) = Some record ->
  Js.toString code <> Otp.code record ->
  (postOtpVerify env phone code st).2 = st
  /\ exists m, (postOtpVerify env phone code st).1 = Failure 400 m.
Proof.
  intros Hrec Hne. unfold postOtpVerify.
  destruct (missing phone || negb (Js.truthy code)); [eauto|].
  destruct (negb (Phone.isValidPhone env phone)); [eauto|].
  rewrite Hrec. rewrite decide_False by congruence. eauto.
Qed.

(** X6. Wrong codes cost nothing: after any number of verification attempts
    with codes other than the stored one, each answered 400, the store is
    as before and the stored code is still accepted. *)
Theorem otp_wrong_codes_no_lockout env phone codes code st record :
  Phone.isValidPhone env phone = true ->
  otps st !! propertyKey (Phone.normalizePhone env phone) = Some record ->
  Forall (fun c => Js.toString c <> Otp.code record) codes ->
  Js.truthy code = true ->
  Js.toString code = Otp.code record ->
  verifyAll env phone codes st = st
  /\ Forall (fun c => exists m, (postOtpVerify env phone c st).1 = Failure 400 m) codes
  /\ (postOtpVerify env phone code (verifyAll env phone codes st)).1
     = Json (propertyKey (Phone.normalizePhone env phone)).
Proof.
  intros Hv Hrec Hcodes Ht Hc.
  assert (Hall : verifyAll env phone codes st = st).
  { unfold verifyAll. induction Hcodes as [|c cs Hc' _ IH]; simpl; [done|].
    by rewrite (proj1 (verify_wrong_code env phone c st record Hrec Hc')). }
  split; [done|]. split.
  - eapply Forall_impl; [exact Hcodes|]. intros c Hc'. simpl in Hc'.
    by apply (verify_wrong_code env phone c st record).
  - rewrite Hall. unfold postOtpVerify.
    rewrite (valid_not_missing _ _ Hv), Ht, Hv. simpl.
    rewrite Hrec. by rewrite decide_True.
Qed.

Lemma otp_wrong_codes_no_lockout_witness :
  (postOtpVerify defaultEnv (Some "+14155551234") (Js.Num 1234)
     (verifyAll defaultEnv (Some "+14155551234")
        [Js.Str "0000"; Js.Num 1111; Js.Undefined; Js.Str "1235"]
        (postOtp defaultEnv 10 234 (Some "+14155551234") emptyStore).2)).1
  = Json "+14155551234".
Proof.
  refine (proj2 (proj2
    (otp_wrong_codes_no_lockout defaultEnv (Some "+14155551234")
       [Js.Str "0000"; Js.Num 1111; Js.Undefined; Js.Str "1235"] (Js.Num 1234)
       (postOtp defaultEnv 10 234 (Some "+14155551234") emptyStore).2
       {| Otp.code := "1234"; Otp.createdAt := 10 |}
       eq_refl eq_refl _ eq_refl eq_refl))).
  repeat constructor; simpl; discriminate.
Defined.

(** X7. The OTP handlers touch the record of one key only: after
    [POST /otp] or [POST /otp/verify] for a phone, whatever the reply, the
    record of every other key, the orders and the bills are as before. *)
Theorem otp_other_keys_untouched env now draw phone code st k :
  k <> propertyKey (Phone.normalizePhone env phone) ->
  let st1 := (postOtp env now draw phone st).2 in
  let st2 := (postOtpVerify env phone code st).2 in
  otps st1 !! k = otps st !! k /\ orders st1 = orders st /\ bills st1 = bills st
  /\ otps st2 !! k = otps st !! k /\ orders st2 = orders st /\ bills st2 = bills st.
Proof.
  intros Hk st1 st2. unfold st1, st2, postOtp, postOtpVerify.
  destruct (missing phone); simpl; [done|].
  destruct (Js.truthy code), (Phone.isValidPhone env phone); simpl;
    rewrite ?lookup_insert_ne by done; try done.
  destruct (otps st !! propertyKey _) as [record|]; [|done].
  destruct (decide _); simpl; [|done].
  by rewrite lookup_delete_ne.
Qed.

Lemma otp_other_keys_untouched_witness :
  otps (postOtp defaultEnv 20 77 (Some "+442079460958")
          (postOtp defaultEnv 10 234 (Some "+14155551234") emptyStore).2).2
    !! "+14155551234"
  = Some {| Otp.code := "1234"; Otp.createdAt := 10 |}.
Proof.
  destruct (otp_other_keys_untouched defaultEnv 20 77 (Some "+442079460958")
              Js.Undefined (postOtp defaultEnv 10 234 (Some "+14155551234") emptyStore).2
              "+14155551234" ltac:(discriminate)) as [H _].
  rewrite H. reflexivity.
Defined.

Lemma otpCodes_checked :
  allFrom (fun d => bool_decide (String.length (otpCode d) = 4%nat)
                    && allChars Js.isDigit (otpCode d)) 0 (Z.to_nat 9000) = true.
Proof. vm_compute. reflexivity. Qed.

(** X8. For every draw from 0 to 8999 the code is a string of four digits. *)
Theorem otpCode_four_digits draw :
  0 <= draw < 9000 ->
  String.length (otpCode draw) = 4%nat /\ allChars Js.isDigit (otpCode draw) = true.
Proof.
  intros H.
  pose proof (allFrom_spec _ _ 0 draw otpCodes_checked ltac:(lia)) as Hd.
  simpl in Hd. apply andb_prop in Hd as [H1 H2].
  split; [eapply bool_decide_eq_true_1; eassumption|done].
Qed.

Lemma otpCode_four_digits_witness :
  String.length (otpCode 8999) = 4%nat /\ allChars Js.isDigit (otpCode 8999) = true.
Proof. apply otpCode_four_digits. lia. Defined.

(** ** Orders, continued *)

Lemma findIndex_fresh id os :
  Forall (fun o => Order.id o <> id) os -> findIndex id os = None.
Proof.
  intros H. unfold findIndex.
  by rewrite (proj2 (list_find_None (fun o => Order.id o = id) os) H).
Qed.

(** X9. A status update for an id that no order has is answered 404 and
    leaves the store as it is. *)
Theorem patchOrder_unknown_id now id status st :
  Forall (fun o => Order.id o <> id) (orders st) ->
  patchOrder now id status st = (Failure 404 "Order not found", st).
Proof. intros H. unfold patchOrder. by rewrite findIndex_fresh. Qed.

Lemma patchOrder_unknown_id_witness :
  patchOrder 5 "ORD-404" (Some "READY") (withOrders emptyStore [])
  = (Failure 404 "Order not found", withOrders emptyStore []).
Proof. apply patchOrder_unknown_id. constructor. Defined.

Lemma patchOrder_store now id status st :
  (patchOrder now id status st).2
  = withOrders st (orders (patchOrder now id status st).2).
Proof.
  unfold patchOrder. destruct (findIndex id (orders st)) as [idx|]; [|by destruct st].
  by destruct (_ !! idx).
Qed.

(** X10. A status update keeps the list of orders in place: every order
    stays at its position with the same id, table, customer, items, total
    and creation time; an order that changes at all is the first one with
    the requested id, and it gets the requested status and [updatedAt = now].
    Bills and OTP records are not touched. *)
Theorem patchOrder_preserves now id status st :
  let st' := (patchOrder now id status st).2 in
  length (orders st') = length (orders st)
  /\ bills st' = bills st /\ otps st' = otps st
  /\ forall j o, orders st !! j = Some o ->
       exists o', orders st' !! j = Some o'
         /\ Order.id o' = Order.id o
         /\ Order.tableNumber o' = Order.tableNumber o
         /\ Order.customerName o' = Order.customerName o
         /\ Order.items o' = Order.items o
         /\ Order.totalAmount o' = Order.totalAmount o
         /\ Order.createdAt o' = Order.createdAt o
         /\ (o' <> o ->
             findIndex id (orders st) = Some j
             /\ Some (Order.status o') = status
             /\ Order.updatedAt o' = Some now).
Proof.
  intros st'. unfold st'. rewrite patchOrder_store.
  destruct (findIndex id (orders st)) as [idx|] eqn:Hidx.
  - rewrite (patchOrder_orders _ _ _ _ _ Hidx). simpl.
    destruct (missing status) eqn:Hm.
    + repeat split; try done. intros j o Ho. exists o. by repeat split.
    + rewrite length_alter. repeat split; try done. intros j o Ho.
      destruct status as [s|]; [|done]. simpl in Hm.
      apply bool_decide_eq_false in Hm. simpl. rewrite decide_False by done.
      destruct (decide (j = idx)) as [->|Hj].
      * rewrite list_lookup_alter, Ho, decide_True by done. simpl.
        eexists. by repeat split.
      * rewrite list_lookup_alter_ne by done. exists o. by repeat split.
  - unfold patchOrder. rewrite Hidx. simpl.
    repeat split; try done. intros j o Ho. exists o. by repeat split.
Qed.

Lemma list_find_snoc {A} (P : A -> Prop) `{forall x, Decision (P x)} (l : list A) x :
  Forall (fun y => ~ P y) l -> P x ->
  list_find P (l ++ [x]) = Some (length l, x).
Proof.
  intros Hl Hx. apply list_find_Some. split; [|split; [done|]].
  - by rewrite lookup_app_r, Nat.sub_diag.
  - intros j y Hy Hj. rewrite lookup_app_l in Hy by done.
    by eapply (proj1 (Forall_lookup _ _) Hl).
Qed.

Lemma postOrders_accepts clock body st :
  noItems (ob_items body) = false ->
  postOrders clock body st
  = (Json (Order.id (newOrder clock body)),
     withOrders st (orders st ++ [newOrder clock body])).
Proof. intros H. unfold postOrders. by rewrite H. Qed.

(** X11. An order can be read back: after [POST /orders] with a non-empty
    [items] array, whose id (made of the first clock reading) no stored
    order has, [GET /orders/:id] with the returned id gives the new order,
    which is [PENDING], was never updated, and carries the items of the
    request and, as creation time, the second clock reading. *)
Theorem postOrders_getOrder clock body st :
  noItems (ob_items body) = false ->
  Forall (fun o => Order.id o <> "ORD-" +:+ pretty (idTime clock)) (orders st) ->
  exists order,
    postOrders clock body st = (Json (Order.id order), withOrders st (orders st ++ [order]))
    /\ Order.id order = "ORD-" +:+ pretty (idTime clock)
    /\ getOrder (Order.id order) (postOrders clock body st).2 = Json order
    /\ Order.status order = "PENDING"
    /\ Order.updatedAt order = None
    /\ Order.createdAt order = createdTime clock
    /\ ItemsArray (Order.items order) = ob_items body.
Proof.
  intros Hitems Hfresh. exists (newOrder clock body).
  rewrite postOrders_accepts by done. repeat split.
  - unfold getOrder. simpl. by rewrite list_find_snoc.
  - simpl. by destruct (ob_items body).
Qed.

Lemma postOrders_getOrder_witness :
  exists order,
    getOrder "ORD-1000"
      (postOrders {| idTime := 1000; createdTime := 1001 |}
         {| ob_tableNumber := Some 4; ob_customerName := Some "h";
            ob_items := ItemsArray [line 30 5]; ob_totalAmount := None |}
         emptyStore).2
    = Json order
    /\ Order.status order = "PENDING"
    /\ Order.createdAt order = 1001.
Proof.
  destruct (postOrders_getOrder {| idTime := 1000; createdTime := 1001 |}
              {| ob_tableNumber := Some 4; ob_customerName := Some "h";
                 ob_items := ItemsArray [line 30 5]; ob_totalAmount := None |}
              emptyStore eq_refl ltac:(constructor))
    as (order & _ & Hid & Hget & Hst & _ & Hat & _).
  exists order. split; [|by split].
  rewrite Hid in Hget. exact Hget.
Defined.

(** X12. Ids are made of a clock reading alone.  Two orders whose ids are
    made in the same millisecond get the same id; both are stored,
    [GET /orders/:id] answers with the older one, and a status update
    reaches the older one only. *)
Theorem same_millisecond_orders clock1 clock2 now' body1 body2 status st :
  idTime clock2 = idTime clock1 ->
  noItems (ob_items body1) = false ->
  noItems (ob_items body2) = false ->
  Forall (fun o => Order.id o <> "ORD-" +:+ pretty (idTime clock1)) (orders st) ->
  let st1 := (postOrders clock1 body1 st).2 in
  let st2 := (postOrders clock2 body2 st1).2 in
  exists first second,
    orders st2 = orders st ++ [first; second]
    /\ (postOrders clock1 body1 st).1 = Json (Order.id first)
    /\ (postOrders clock2 body2 st1).1 = Json (Order.id first)
    /\ Order.id second = Order.id first
    /\ getOrder (Order.id first) st2 = Json first
    /\ orders (patchOrder now' (Order.id first) status st2).2
         !! S (length (orders st)) = Some second.
Proof.
  intros Hsame H1 H2 Hfresh st1 st2. unfold st2, st1.
  exists (newOrder clock1 body1), (newOrder clock2 body2).
  rewrite !postOrders_accepts by done. simpl. rewrite Hsame.
  split; [by rewrite <- app_assoc|].
  split; [done|]. split; [done|]. split; [done|].
  assert (Hfind : list_find (fun o => Order.id o = "ORD-" +:+ pretty (idTime clock1))
                    ((orders st ++ [newOrder clock1 body1]) ++ [newOrder clock2 body2])
                  = Some (length (orders st), newOrder clock1 body1)).
  { apply list_find_app_l. by apply list_find_snoc. }
  assert (Hsnd : ((orders st ++ [newOrder clock1 body1]) ++ [newOrder clock2 body2])
                   !! S (length (orders st)) = Some (newOrder clock2 body2)).
  { rewrite lookup_app_r by (rewrite length_app; simpl; lia).
    rewrite length_app. simpl.
    by replace (S (length (orders st)) - (length (orders st) + 1))%nat with 0%nat by lia. }
  split.
  - unfold getOrder. simpl. by rewrite Hfind.
  - rewrite patchOrder_orders with (idx := length (orders st))
      by (unfold findIndex; simpl; by rewrite Hfind).
    simpl. destruct (missing status); [done|].
    by rewrite list_lookup_alter_ne by lia.
Qed.

Lemma same_millisecond_orders_witness :
  length (orders (postOrders {| idTime := 7; createdTime := 8 |}
            {| ob_tableNumber := Some 2; ob_customerName := None;
               ob_items := ItemsArray [line 20 2]; ob_totalAmount := None |}
            (postOrders {| idTime := 7; createdTime := 7 |}
               {| ob_tableNumber := Some 1; ob_customerName := None;
                  ob_items := ItemsArray [line 30 5]; ob_totalAmount := None |}
               emptyStore).2).2) = 2%nat.
Proof.
  destruct (same_millisecond_orders {| idTime := 7; createdTime := 7 |}
              {| idTime := 7; createdTime := 8 |} 9
              {| ob_tableNumber := Some 1; ob_customerName := None;
                 ob_items := ItemsArray [line 30 5]; ob_totalAmount := None |}
              {| ob_tableNumber := Some 2; ob_customerName := None;
                 ob_items := ItemsArray [line 20 2]; ob_totalAmount := None |}
              None emptyStore eq_refl eq_refl eq_refl ltac:(constructor))
    as (o1 & o2 & Hos & _).
  by rewrite Hos.
Defined.

(** ** Listing orders *)

Lemma filter_sublist {A} (f : A -> bool) (l : list A) : List.filter f l `sublist_of` l.
Proof.
  induction l as [|x l IH]; simpl; [constructor|].
  destruct (f x); by constructor.
Qed.

Lemma elem_of_List_filter {A} (f : A -> bool) (l : list A) x :
  x ∈ List.filter f l <-> x ∈ l /\ f x = true.
Proof. rewrite !list_elem_of_In. apply filter_In. Qed.

(** X13. [GET /orders] returns the stored orders that pass the filters of
    the query, in their stored order: the status asked for, if any; not
    [COMPLETED] when [excludeCompleted] is the string [true]; created at or
    after the bound when [since] parses to a number other than 0 and NaN. *)
Theorem getOrders_filter q st :
  getOrders q st `sublist_of` orders st
  /\ forall o,
       o ∈ getOrders q st <->
       o ∈ orders st
       /\ (missing (q_status q) = false -> Some (Order.status o) = q_status q)
       /\ (q_excludeCompleted q = Some "true" -> Order.status o <> "COMPLETED")
       /\ (forall x, sinceBound (q_since q) = Some x ->
           Float64.atLeast x (Order.createdAt o) = true).
Proof.
  unfold getOrders.
  set (l0 := orders st).
  set (l1 := if missing (q_status q) then l0 else _).
  set (l2 := if bool_decide (q_excludeCompleted q = Some "true") then _ else l1).
  assert (S1 : l1 `sublist_of` l0).
  { unfold l1. destruct (missing _); [done|apply filter_sublist]. }
  assert (S2 : l2 `sublist_of` l1).
  { unfold l2. destruct (bool_decide _); [apply filter_sublist|done]. }
  assert (E1 : forall o, o ∈ l1 <-> o ∈ l0
                /\ (missing (q_status q) = false -> Some (Order.status o) = q_status q)).
  { intros o. unfold l1. destruct (q_status q) as [s|] eqn:Hs; simpl.
    - destruct (bool_decide (s = "")) eqn:Hm; [naive_solver|].
      apply bool_decide_eq_false in Hm.
      rewrite elem_of_List_filter, bool_decide_eq_true, decide_False by done.
      naive_solver.
    - naive_solver. }
  assert (E2 : forall o, o ∈ l2 <-> o ∈ l1
                /\ (q_excludeCompleted q = Some "true" -> Order.status o <> "COMPLETED")).
  { intros o. unfold l2. destruct (bool_decide _) eqn:Hx.
    - apply bool_decide_eq_true in Hx.
      rewrite elem_of_List_filter, negb_true_iff, bool_decide_eq_false. naive_solver.
    - apply bool_decide_eq_false in Hx. naive_solver. }
  destruct (sinceBound (q_since q)) as [n|].
  - split; [etrans; [apply filter_sublist|by etrans]|].
    intros o. rewrite elem_of_List_filter, E2, E1. naive_solver.
  - split; [by etrans|]. intros o. rewrite E2, E1. naive_solver.
Qed.

(** Decimal writing and [parseInt]. *)

Lemma digitValue_pretty_N_char d :
  (d < 10)%N -> digitValue (pretty_N_char d) = Some (Z.of_N d).
Proof.
  intros H.
  assert (d = 0 \/ d = 1 \/ d = 2 \/ d = 3 \/ d = 4 \/ d = 5 \/ d = 6 \/ d = 7
          \/ d = 8 \/ d = 9)%N as Hd by lia.
  repeat (destruct Hd as [->|Hd]; [done|]). by subst.
Qed.

Lemma readDigits_pretty_N_go x : forall s,
  readDigits 0 (pretty_N_go x s) = readDigits (Z.of_N x) s.
Proof.
  induction (N.lt_wf_0 x) as [x _ IH]; intros s.
  destruct (decide (x = 0)%N) as [->|Hx]; [by rewrite pretty_N_go_0|].
  rewrite pretty_N_go_step by lia.
  rewrite IH by (apply N.div_lt; lia). simpl.
  rewrite digitValue_pretty_N_char by (apply N.mod_lt; lia).
  f_equal. rewrite N2Z.inj_div, N2Z.inj_mod.
  pose proof (Z.div_mod (Z.of_N x) 10 ltac:(lia)). simpl Z.of_N in *. lia.
Qed.

Lemma pretty_N_go_digitFirst x : forall s, digitFirst s -> digitFirst (pretty_N_go x s).
Proof.
  induction (N.lt_wf_0 x) as [x _ IH]; intros s Hs.
  destruct (decide (x = 0)%N) as [->|Hx]; [by rewrite pretty_N_go_0|].
  rewrite pretty_N_go_step by lia. apply IH; [apply N.div_lt; lia|].
  eexists _, _, _. split; [done|]. apply digitValue_pretty_N_char, N.mod_lt. lia.
Qed.

Lemma pretty_pos_digitFirst p : digitFirst (pretty (Npos p)).
Proof.
  unfold pretty, pretty_N. rewrite decide_False by done.
  rewrite pretty_N_go_step by lia. apply pretty_N_go_digitFirst.
  eexists _, _, _. split; [done|]. apply digitValue_pretty_N_char, N.mod_lt. lia.
Qed.

Lemma parseDigits_digitFirst s : digitFirst s -> parseDigits s = Some (readDigits 0 s).
Proof. intros (c & r & d & -> & Hd). unfold parseDigits. by rewrite Hd. Qed.

Lemma parseSigned_digitFirst s : digitFirst s -> parseSigned s = Some (readDigits 0 s).
Proof.
  intros Hs. rewrite <- (parseDigits_digitFirst s Hs).
  destruct Hs as (c & r & d & -> & Hd).
  destruct c as [[] [] [] [] [] [] [] []]; try discriminate Hd; reflexivity.
Qed.

Lemma readDigits_pretty_pos p : readDigits 0 (pretty (Npos p)) = Z.pos p.
Proof.
  unfold pretty, pretty_N. rewrite decide_False by done.
  by rewrite readDigits_pretty_N_go.
Qed.

(** The digits of [parseInt] are those that [String(n)] writes. *)
Lemma parseSigned_pretty (n : Z) : parseSigned (pretty n) = Some n.
Proof.
  destruct n as [|p|p]; [done| |].
  - change (pretty (Z.pos p)) with (pretty (Npos p)).
    rewrite parseSigned_digitFirst by apply pretty_pos_digitFirst.
    by rewrite readDigits_pretty_pos.
  - change (pretty (Z.neg p)) with (String "-" (pretty (Npos p))).
    unfold parseSigned. simpl.
    rewrite parseDigits_digitFirst by apply pretty_pos_digitFirst.
    by rewrite readDigits_pretty_pos.
Qed.

Lemma sinceBound_pretty p :
  Z.pos p < 2 ^ 53 -> sinceBound (Some (pretty (Z.pos p))) = Some (Float64.ofZ (Z.pos p)).
Proof.
  intros Hp. unfold sinceBound, parseInt10. simpl.
  rewrite bool_decide_eq_false_2 by apply pretty_Z_nonempty.
  rewrite decide_False by apply pretty_Z_nonempty.
  rewrite parseSigned_pretty. by rewrite Float64Facts.truthy_ofZ.
Qed.

(** X14. A [since] that is the decimal writing of a timestamp bounds the
    listing by that timestamp: with the digits of [t], [GET /orders]
    returns the stored orders created at [t] or later.  [t] and the creation
    times are below 2^53, where every integer is a double. *)
Theorem getOrders_since t st :
  0 < t < 2 ^ 53 ->
  Forall (fun o => 0 <= Order.createdAt o < 2 ^ 53) (orders st) ->
  getOrders {| q_status := None; q_excludeCompleted := None; q_since := Some (pretty t) |} st
  = List.filter (fun o => t <=? Order.createdAt o) (orders st).
Proof.
  intros Ht Hst. destruct t as [|p|p]; [lia| |lia].
  unfold getOrders. cbn [q_status q_excludeCompleted q_since missing].
  rewrite bool_decide_eq_false_2 by done.
  rewrite sinceBound_pretty by lia.
  apply List.filter_ext_in. intros o Ho%list_elem_of_In.
  apply Float64Facts.atLeast_ofZ; [lia|].
  by apply (proj1 (Forall_forall _ _) Hst).
Qed.

Lemma getOrders_since_witness :
  length (getOrders {| q_status := None; q_excludeCompleted := None;
                       q_since := Some "1001" |}
            (withOrders emptyStore
               [ newOrder {| idTime := 1000; createdTime := 1000 |}
                   {| ob_tableNumber := Some 1; ob_customerName := None;
                      ob_items := ItemsArray [line 30 5]; ob_totalAmount := None |};
                 newOrder {| idTime := 1002; createdTime := 1002 |}
                   {| ob_tableNumber := Some 2; ob_customerName := None;
                      ob_items := ItemsArray [line 20 2]; ob_totalAmount := None |} ]))
  = 1%nat.
Proof.
  rewrite (getOrders_since 1001); [reflexivity|lia|].
  repeat constructor; simpl; lia.
Defined.

(** Past 2^53 the bound is the double nearest to the digits:
    9007199254740993 is read as 9007199254740992, and an order created then
    is listed. *)
Example getOrders_since_rounded :
  let o := newOrder {| idTime := 9007199254740992; createdTime := 9007199254740992 |}
             {| ob_tableNumber := Some 1; ob_customerName := None;
                ob_items := ItemsArray [line 30 5]; ob_totalAmount := None |} in
  getOrders {| q_status := None; q_excludeCompleted := None;
               q_since := Some "9007199254740993" |}
    (withOrders emptyStore [o])
  = [o].
Proof. by vm_compute. Qed.

(** ** Bills, continued *)

Lemma valid_key_nonempty env phone :
  Phone.isValidPhone env phone = true ->
  exists n, Phone.normalizePhone env phone = Some n /\ n <> EmptyString.
Proof.
  unfold Phone.isValidPhone.
  destruct (Phone.normalizePhone env phone) as [[|c r]|]; try done.
  intros _. by eexists.
Qed.

Lemma postBills_accepts env clock body st :
  noItems (bb_items body) = false ->
  missing (bb_customerPhone body) = true
    \/ Phone.isValidPhone env (bb_customerPhone body) = true ->
  postBills env clock body st
  = (Json (newBill env clock body), withBills st (bills st ++ [newBill env clock body])).
Proof.
  intros Hitems Hphone. unfold postBills, newBill. rewrite Hitems.
  destruct (missing (bb_customerPhone body)) eqn:Hm; simpl; [done|].
  destruct Hphone as [?|Hv]; [done|]. rewrite Hv. simpl.
  destruct (valid_key_nonempty _ _ Hv) as (n & -> & Hn). simpl.
  by rewrite bool_decide_eq_false_2.
Qed.

(** X15. A bill with a customer phone that is present but not valid is
    refused with 400 and not stored; a bill that is stored carries either no
    phone or the key of the phone, so the bills of the store keep having
    keys as phones. *)
Theorem postBills_phone env clock body st :
  wellFormedCode env ->
  noItems (bb_items body) = false ->
  phonesAreKeys env st ->
  (missing (bb_customerPhone body) = false ->
   Phone.isValidPhone env (bb_customerPhone body) = false ->
   postBills env clock body st = (Failure 400 "invalid phone format", st))
  /\ phonesAreKeys env (postBills env clock body st).2.
Proof.
  intros Hwf Hitems Hinv. split.
  - intros Hm Hv. unfold postBills. by rewrite Hitems, Hm, Hv.
  - destruct (missing (bb_customerPhone body)) eqn:Hm.
    + rewrite postBills_accepts by auto. unfold phonesAreKeys. simpl.
      apply Forall_app. split; [done|]. constructor; [|done]. left.
      simpl. by rewrite Hm.
    + destruct (Phone.isValidPhone env (bb_customerPhone body)) eqn:Hv.
      * rewrite postBills_accepts by auto. unfold phonesAreKeys. simpl.
        apply Forall_app. split; [done|]. constructor; [|done]. right.
        simpl. rewrite Hm.
        by rewrite isValidPhone_normalized_code, normalizePhone_idempotent_code.
      * unfold postBills. by rewrite Hitems, Hm, Hv.
Qed.

Lemma postBills_phone_witness :
  postBills defaultEnv {| idTime := 9; createdTime := 10 |}
    {| bb_tableNumber := None; bb_customerName := None;
       bb_customerPhone := Some "12345"; bb_items := ItemsArray [line 20 2] |}
    emptyStore
  = (Failure 400 "invalid phone format", emptyStore).
Proof.
  apply (postBills_phone defaultEnv {| idTime := 9; createdTime := 10 |}
           {| bb_tableNumber := None; bb_customerName := None;
              bb_customerPhone := Some "12345"; bb_items := ItemsArray [line 20 2] |}
           emptyStore); try done.
  constructor.
Defined.

(** X16. The bills of a customer are found under every spelling of the
    phone: after a bill is stored with a valid phone, the listing for any
    raw phone with the same key contains it, and the listing holds exactly
    the stored bills whose phone is that key. *)
Theorem billsByCustomer_finds env clock body st rawPhone :
  noItems (bb_items body) = false ->
  Phone.isValidPhone env (bb_customerPhone body) = true ->
  Phone.normalizePhone env (Some rawPhone) = Phone.normalizePhone env (bb_customerPhone body) ->
  exists bill found,
    postBills env clock body st = (Json bill, withBills st (bills st ++ [bill]))
    /\ billsByCustomer env rawPhone (postBills env clock body st).2 = Json found
    /\ bill ∈ found
    /\ forall b, b ∈ found <->
         b ∈ bills st ++ [bill]
         /\ Bill.customerPhone b = Phone.normalizePhone env (Some rawPhone).
Proof.
  intros Hitems Hv Hkey.
  exists (newBill env clock body). eexists.
  rewrite postBills_accepts by auto. split; [done|].
  unfold billsByCustomer. rewrite (same_key_valid _ _ _ Hkey), Hv.
  cbn [snd bills withBills negb]. split; [done|].
  assert (Hall : forall b,
             b ∈ List.filter (fun b => bool_decide
                                (Bill.customerPhone b = Phone.normalizePhone env (Some rawPhone)))
                   (bills st ++ [newBill env clock body])
             <-> b ∈ bills st ++ [newBill env clock body]
                 /\ Bill.customerPhone b = Phone.normalizePhone env (Some rawPhone)).
  { intros b. by rewrite elem_of_List_filter, bool_decide_eq_true. }
  split; [|done]. apply Hall. split.
  - apply elem_of_app. right. by apply list_elem_of_singleton.
  - rewrite Hkey. cbn [newBill Bill.customerPhone].
    by rewrite (valid_not_missing _ _ Hv).
Qed.

Lemma billsByCustomer_finds_witness :
  exists bill found,
    billsByCustomer defaultEnv "whatsapp:+14155551234"
      (postBills defaultEnv {| idTime := 9; createdTime := 10 |}
         {| bb_tableNumber := None; bb_customerName := None;
            bb_customerPhone := Some "(415) 555-1234";
            bb_items := ItemsArray [line 20 2] |} emptyStore).2
    = Json found
    /\ bill ∈ found.
Proof.
  destruct (billsByCustomer_finds defaultEnv {| idTime := 9; createdTime := 10 |}
              {| bb_tableNumber := None; bb_customerName := None;
                 bb_customerPhone := Some "(415) 555-1234";
                 bb_items := ItemsArray [line 20 2] |} emptyStore
              "whatsapp:+14155551234" eq_refl eq_refl eq_refl)
    as (bill & found & _ & Hf & Hin & _).
  by exists bill, found.
Defined.

(** A bill can be read back: after [POST /bills] succeeds with an id (made
    of the first clock reading) that no stored bill has, [GET /bills/:id]
    with the id of the returned bill gives that bill, whose creation time is
    the second clock reading. *)
Theorem postBills_getBill env clock body st :
  noItems (bb_items body) = false ->
  missing (bb_customerPhone body) = true
    \/ Phone.isValidPhone env (bb_customerPhone body) = true ->
  Forall (fun b => Bill.id b <> "BILL-" +:+ pretty (idTime clock)) (bills st) ->
  exists bill,
    postBills env clock body st = (Json bill, withBills st (bills st ++ [bill]))
    /\ getBill (Bill.id bill) (postBills env clock body st).2 = Json bill
    /\ Bill.id bill = "BILL-" +:+ pretty (idTime clock)
    /\ Bill.createdAt bill = createdTime clock
    /\ ItemsArray (Bill.items bill) = bb_items body.
Proof.
  intros Hitems Hphone Hfresh. exists (newBill env clock body).
  rewrite postBills_accepts by done. repeat split.
  - unfold getBill. simpl. by rewrite list_find_snoc.
  - simpl. by destruct (bb_items body).
Qed.

Lemma postBills_getBill_witness :
  exists bill,
    postBills defaultEnv {| idTime := 9; createdTime := 10 |}
      {| bb_tableNumber := Some 4; bb_customerName := None;
         bb_customerPhone := None; bb_items := ItemsArray [line 30 5] |} emptyStore
    = (Json bill, withBills emptyStore [bill])
    /\ Bill.createdAt bill = 10.
Proof.
  destruct (postBills_getBill defaultEnv {| idTime := 9; createdTime := 10 |}
              {| bb_tableNumber := Some 4; bb_customerName := None;
                 bb_customerPhone := None; bb_items := ItemsArray [line 30 5] |}
              emptyStore eq_refl ltac:(by left) ltac:(constructor))
    as (bill & Hpost & _ & _ & Hat & _).
  by exists bill.
Defined.

Lemma exact_charges_bounds subtotal :
  0 <= subtotal ->
  0 <= serviceOf subtotal <= taxOf subtotal
  /\ taxOf subtotal <= subtotal
  /\ 7 * subtotal - 100 <= 100 * (taxOf subtotal + serviceOf subtotal) <= 7 * subtotal + 100.
Proof.
  intros H. unfold taxOf, serviceOf, Js.roundDiv.
  pose proof (Z.mul_div_le (2 * (subtotal * 5) + 100) (2 * 100) ltac:(lia)).
  pose proof (Z.mul_succ_div_gt (2 * (subtotal * 5) + 100) (2 * 100) ltac:(lia)).
  pose proof (Z.mul_div_le (2 * (subtotal * 2) + 100) (2 * 100) ltac:(lia)).
  pose proof (Z.mul_succ_div_gt (2 * (subtotal * 2) + 100) (2 * 100) ltac:(lia)).
  assert (0 <= (2 * (subtotal * 2) + 100) / (2 * 100)) by (apply Z.div_pos; lia).
  assert ((2 * (subtotal * 2) + 100) / (2 * 100) <= (2 * (subtotal * 5) + 100) / (2 * 100))
    by (apply Z.div_le_mono; lia).
  lia.
Qed.

(** X18. On a subtotal that is not negative the two charges are not
    negative, the service charge does not exceed the tax, the tax does not
    exceed the subtotal, and together they are within one unit of 7 % of
    the subtotal: so for the exact roundings [taxOf] and [serviceOf] of
    every subtotal, and for the [tax] and [service] that the handler
    computes on doubles from a subtotal below 2^51. *)
Theorem charges_bounds subtotal :
  0 <= subtotal ->
  (0 <= serviceOf subtotal <= taxOf subtotal
   /\ taxOf subtotal <= subtotal
   /\ 7 * subtotal - 100 <= 100 * (taxOf subtotal + serviceOf subtotal) <= 7 * subtotal + 100)
  /\ (subtotal < 2 ^ 51 ->
      forall tax service,
        Float64.tax subtotal = Some tax ->
        Float64.service subtotal = Some service ->
        0 <= service <= tax
        /\ tax <= subtotal
        /\ 7 * subtotal - 100 <= 100 * (tax + service) <= 7 * subtotal + 100).
Proof.
  intros H. split; [by apply exact_charges_bounds|].
  intros Hlt tax service.
  rewrite Float64Facts.tax_small, Float64Facts.service_small by done.
  intros [= <-] [= <-]. by apply exact_charges_bounds.
Qed.

Lemma charges_bounds_witness :
  0 <= serviceOf 150 <= taxOf 150 /\ taxOf 150 <= 150.
Proof.
  pose proof (charges_bounds 150 ltac:(lia)) as ((H1 & H2 & _) & _). by split.
Defined.

(** ** Daily report, continued *)

Lemma dayBills_snoc start end_ bs b :
  List.filter (within start end_) (bs ++ [b])
  = List.filter (within start end_) bs ++ (if within start end_ b then [b] else []).
Proof. rewrite List.filter_app. simpl. by destruct (within start end_ b). Qed.



(** X20. The window of a day closes at 23:59:59.000.  On days of 24 hours
    a bill created in the 999 milliseconds after that and before the next
    midnight changes neither the report of its day nor the report of the
    next day. *)
Theorem last_second_unreported midnight st b :
  dayEnd midnight < Bill.createdAt b < midnight + 24 * 3600 * 1000 ->
  let st' := withBills st (bills st ++ [b]) in
  dailyReport midnight (dayEnd midnight) st' = dailyReport midnight (dayEnd midnight) st
  /\ dailyReport (midnight + 24 * 3600 * 1000) (dayEnd (midnight + 24 * 3600 * 1000)) st'
     = dailyReport (midnight + 24 * 3600 * 1000) (dayEnd (midnight + 24 * 3600 * 1000)) st
  /\ topItems midnight (dayEnd midnight) (bills st')
     = topItems midnight (dayEnd midnight) (bills st).
Proof.
  intros Hb st'. unfold st', dailyReport, reportOfWindow, topItems.
  cbn [bills withBills]. rewrite !dayBills_snoc.
  assert (within midnight (dayEnd midnight) b = false) as ->.
  { destruct (within _ _ _) eqn:E; [|done].
    apply within_spec in E. unfold inWindow in E. lia. }
  assert (within (midnight + 24 * 3600 * 1000) (dayEnd (midnight + 24 * 3600 * 1000)) b
          = false) as ->.
  { destruct (within _ _ _) eqn:E; [|done].
    apply within_spec in E. unfold inWindow in E. lia. }
  by rewrite !app_nil_r.
Qed.

Lemma last_second_unreported_witness :
  totalOrders (dailyReport 1763164800000 (dayEnd 1763164800000)
                 (withBills emptyStore
                    [ {| Bill.id := "BILL-1763251199500"; Bill.tableNumber := None;
                         Bill.customerName := "Guest"; Bill.customerPhone := None;
                         Bill.items := [line 20 2]; Bill.subtotal := 40; Bill.tax := 2;
                         Bill.service := 1; Bill.total := 43;
                         Bill.createdAt := 1763251199500 |} ]))
  = 0%nat.
Proof.
  pose proof (last_second_unreported 1763164800000 emptyStore
                {| Bill.id := "BILL-1763251199500"; Bill.tableNumber := None;
                   Bill.customerName := "Guest"; Bill.customerPhone := None;
                   Bill.items := [line 20 2]; Bill.subtotal := 40; Bill.tax := 2;
                   Bill.service := 1; Bill.total := 43;
                   Bill.createdAt := 1763251199500 |}
                ltac:(unfold dayEnd; simpl; lia)) as [H _].
  simpl in H. exact (f_equal totalOrders H).
Defined.

Lemma size_names (l : list string) :
  (size (list_to_set l : gset string) <= length l)%nat
  /\ (size (list_to_set l : gset string) = 0%nat <-> l = []).
Proof.
  split.
  - induction l as [|x l IH]; simpl; [done|].
    rewrite size_union_alt, size_singleton.
    pose proof (subseteq_size (list_to_set l ∖ {[x]}) (list_to_set l : gset string)
                  ltac:(set_solver)). lia.
  - rewrite size_empty_iff. split.
    + destruct l as [|x l]; [done|]. simpl. intros H.
      assert (x ∈ (∅ : gset string)) by (rewrite <- H; set_solver). set_solver.
    + by intros ->.
Qed.

(** X21. The report never counts more customers than orders, and counts no
    customer exactly when it counts no order. *)
Theorem totalCustomers_bound start end_ bs :
  let r := reportOfWindow start end_ bs in
  (totalCustomers r <= totalOrders r)%nat
  /\ (totalCustomers r = 0%nat <-> totalOrders r = 0%nat).
Proof.
  unfold reportOfWindow. cbn [totalCustomers totalOrders].
  set (dayBills := List.filter (within start end_) bs).
  destruct (size_names (map Bill.customerName dayBills)) as [H1 H2].
  rewrite length_map in H1. split; [done|].
  rewrite H2. destruct dayBills; simpl; naive_solver.
Qed.

(** ** Sorting *)

Section SortBy.
Context {A : Type} (cmp : A -> A -> Z).

Lemma insertBy_perm x l : insertBy cmp x l ≡ₚ x :: l.
Proof.
  induction l as [|y l IH]; simpl; [done|].
  destruct (cmp x y <=? 0); [done|]. rewrite IH. apply Permutation_swap.
Qed.

Lemma sortBy_perm l : sortBy cmp l ≡ₚ l.
Proof.
  induction l as [|x l IH]; simpl; [done|].
  fold (sortBy cmp l). by rewrite insertBy_perm, IH.
Qed.

Variable R : relation A.
Hypothesis R_cmp : forall x y, cmp x y <= 0 -> R x y.
Hypothesis R_total : forall x y, 0 < cmp x y -> R y x.
Hypothesis R_trans : forall x y z, R x y -> R y z -> R x z.

Lemma insertBy_sorted x l : StronglySorted R l -> StronglySorted R (insertBy cmp x l).
Proof.
  induction 1 as [|y l Hl IH Hy]; simpl; [by repeat constructor|].
  destruct (Z.leb_spec (cmp x y) 0) as [Hc|Hc].
  - constructor; [by constructor|]. constructor; [by apply R_cmp|].
    eapply Forall_impl; [exact Hy|]. intros z Hz. simpl in Hz.
    eapply R_trans; [|exact Hz]. by apply R_cmp.
  - constructor; [done|].
    rewrite insertBy_perm. constructor; [by apply R_total|done].
Qed.

Lemma sortBy_sorted l : StronglySorted R (sortBy cmp l).
Proof.
  induction l as [|x l IH]; simpl; [constructor|]. by apply insertBy_sorted.
Qed.
End SortBy.

Lemma StronglySorted_take {A} (R : relation A) n l :
  StronglySorted R l -> StronglySorted R (take n l).
Proof.
  intros H. rewrite <- (take_drop n l) in H. by apply StronglySorted_app_1_l in H.
Qed.

(** ** Top items *)


(** X22. [topItems] holds at most ten entries, all taken from the items
    counted for the day, in descending order of quantity; so its first
    entry has the largest quantity of all counted items.  With at most ten
    counted items it holds them all. *)
Theorem topItems_sorted start end_ bs :
  let counted := objectValues (itemMapOf (List.filter (within start end_) bs)) in
  let top := topItems start end_ bs in
  (length top <= 10)%nat
  /\ top ⊆ counted
  /\ StronglySorted (fun a b => ti_quantity b <= ti_quantity a) top
  /\ (forall first x, head top = Some first -> x ∈ counted ->
        ti_quantity x <= ti_quantity first)
  /\ ((length counted <= 10)%nat -> top ≡ₚ counted).
Proof.
  intros counted top. unfold top, topItems, topItemsOf. fold counted.
  set (cmp := fun a b => ti_quantity b - ti_quantity a).
  assert (Hperm : sortBy cmp counted ≡ₚ counted) by apply sortBy_perm.
  assert (Hsorted : StronglySorted (fun a b => ti_quantity b <= ti_quantity a)
                      (sortBy cmp counted)).
  { apply sortBy_sorted; unfold cmp; intros; lia. }
  split; [rewrite length_take; lia|].
  split; [intros x Hx%elem_of_take; destruct Hx as (i & Hx & _);
          rewrite <- Hperm; by eapply list_elem_of_lookup_2|].
  split; [by apply StronglySorted_take|].
  split.
  - intros first x Hfirst Hx. rewrite <- Hperm in Hx.
    destruct (sortBy cmp counted) as [|y l] eqn:E; [by apply elem_of_nil in Hx|].
    simpl in Hfirst. injection Hfirst as <-.
    apply StronglySorted_inv in Hsorted as [_ Hall].
    apply elem_of_cons in Hx as [->|Hx]; [lia|].
    by apply (proj1 (Forall_forall _ _) Hall).
  - intros Hlen. rewrite take_ge; [done|]. by rewrite Hperm.
Qed.

(** The spec's example: A with quantity 5 and B with quantity 2. *)
Example topItems_A_before_B :
  map ti_name
    (topItems 0 100
       [ {| Bill.id := "BILL-1"; Bill.tableNumber := None; Bill.customerName := "Guest";
            Bill.customerPhone := None;
            Bill.items := [ {| Item.id := Some "b"; Item.name := "B";
                               Item.price := Some 20; Item.quantity := Some 2 |};
                            {| Item.id := Some "a"; Item.name := "A";
                               Item.price := Some 30; Item.quantity := Some 5 |} ];
            Bill.subtotal := 190; Bill.tax := 10; Bill.service := 4; Bill.total := 204;
            Bill.createdAt := 50 |} ])
  = ["A"; "B"].
Proof. vm_compute. reflexivity. Qed.









(** ** Kitchen dashboard *)

Lemma compareOrders_le a b : compareOrders a b <= 0 -> servedBefore a b.
Proof.
  unfold compareOrders, servedBefore.
  repeat case_bool_decide; simpl; intros; first [lia | by left | right; split; [tauto|lia]].
Qed.

Lemma compareOrders_gt a b : 0 < compareOrders a b -> servedBefore b a.
Proof.
  unfold compareOrders, servedBefore.
  repeat case_bool_decide; simpl; intros; first [lia | by left | right; split; [tauto|lia]].
Qed.

Lemma servedBefore_trans a b c : servedBefore a b -> servedBefore b c -> servedBefore a c.
Proof.
  unfold servedBefore.
  destruct (decide (Order.status a = "BILL_REQUESTED"));
    destruct (decide (Order.status b = "BILL_REQUESTED"));
    destruct (decide (Order.status c = "BILL_REQUESTED"));
    intros [?|[? ?]] [?|[? ?]]; try tauto; right; split; try tauto; lia.
Qed.

(** X24. The dashboard shows every order once, the [BILL_REQUESTED] ones
    first, and within the two groups the older before the newer. *)
Theorem sortedOrders_sorted os :
  sortedOrders os ≡ₚ os
  /\ StronglySorted servedBefore (sortedOrders os).
Proof.
  split; [apply sortBy_perm|].
  apply sortBy_sorted.
  - apply compareOrders_le.
  - apply compareOrders_gt.
  - apply servedBefore_trans.
Qed.

Lemma getOrder_findIndex id st idx o :
  findIndex id (orders st) = Some idx -> orders st !! idx = Some o ->
  getOrder id st = Json o.
Proof.
  unfold findIndex, getOrder.
  destruct (list_find _ (orders st)) as [[i o']|] eqn:E; [|done].
  intros [= <-] Ho. apply list_find_Some in E as (Ho' & _). congruence.
Qed.

Lemma findIndex_snoc id os o :
  Forall (fun o' => Order.id o' <> id) os -> Order.id o = id ->
  findIndex id (os ++ [o]) = Some (length os).
Proof. intros H1 H2. unfold findIndex. by rewrite list_find_snoc. Qed.

(** X25. Generating the bill of an order whose id is on the server and
    whose items are not empty stores one bill made of the items of the
    order, created at the second clock reading of [POST /bills], and marks
    the order [COMPLETED] at the time of the second call.
    For an order without items nothing is stored and the order is not
    completed. *)
Theorem generateBillForOrder_completes env clock now order st idx o :
  findIndex (Order.id order) (orders st) = Some idx ->
  orders st !! idx = Some o ->
  (Order.items order <> [] ->
   exists bill o',
     generateBillForOrder env clock now order st
     = (Some bill, withOrders (withBills st (bills st ++ [bill]))
                     (<[idx := o']> (orders st)))
     /\ Bill.items bill = Order.items order
     /\ Bill.subtotal bill = sumItems (Order.items order)
     /\ Bill.createdAt bill = createdTime clock
     /\ o' = Order.setStatus "COMPLETED" now o)
  /\ (Order.items order = [] ->
      generateBillForOrder env clock now order st = (None, st)).
Proof.
  intros Hidx Ho. split.
  - intros Hne. unfold generateBillForOrder.
    set (body := {| bb_tableNumber := Order.tableNumber order;
                    bb_customerName := Some (Order.customerName order);
                    bb_customerPhone := None;
                    bb_items := ItemsArray (Order.items order) |}).
    rewrite postBills_accepts; [|by destruct (Order.items order)|by left].
    exists (newBill env clock body), (Order.setStatus "COMPLETED" now o).
    split; [|by repeat split].
    f_equal. unfold patchOrder. cbn [orders withBills]. rewrite Hidx. simpl.
    rewrite list_lookup_alter, Ho, decide_True by done. simpl.
    unfold withOrders. simpl. f_equal.
    apply list_eq. intros j. destruct (decide (j = idx)) as [->|Hj].
    + rewrite list_lookup_alter, Ho, decide_True by done.
      rewrite list_lookup_insert_eq; [done|]. by eapply lookup_lt_Some.
    + by rewrite list_lookup_alter_ne, list_lookup_insert_ne.
  - intros Hnil. unfold generateBillForOrder, postBills. simpl. by rewrite Hnil.
Qed.

Lemma generateBillForOrder_completes_witness :
  exists bill o',
    generateBillForOrder defaultEnv {| idTime := 20; createdTime := 21 |} 22
      (newOrder {| idTime := 7; createdTime := 8 |}
        {| ob_tableNumber := Some 1; ob_customerName := None;
           ob_items := ItemsArray [line 30 5]; ob_totalAmount := None |})
      (withOrders emptyStore [newOrder {| idTime := 7; createdTime := 8 |}
        {| ob_tableNumber := Some 1; ob_customerName := None;
           ob_items := ItemsArray [line 30 5]; ob_totalAmount := None |}])
    = (Some bill, withOrders (withBills emptyStore [bill]) [o'])
    /\ Order.status o' = "COMPLETED".
Proof.
  destruct (generateBillForOrder_completes defaultEnv {| idTime := 20; createdTime := 21 |} 22
              (newOrder {| idTime := 7; createdTime := 8 |} {| ob_tableNumber := Some 1; ob_customerName := None;
                             ob_items := ItemsArray [line 30 5]; ob_totalAmount := None |})
              (withOrders emptyStore
                 [newOrder {| idTime := 7; createdTime := 8 |} {| ob_tableNumber := Some 1; ob_customerName := None;
                                ob_items := ItemsArray [line 30 5];
                                ob_totalAmount := None |}])
              0%nat _ eq_refl eq_refl) as [H _].
  destruct (H ltac:(discriminate)) as (bill & o' & Hg & _ & _ & _ & Ho').
  exists bill, o'. split; [exact Hg|]. by rewrite Ho'.
Defined.

(** X26. The figures of the bill dialog are those of the bill that is then
    generated, for every order whose [totalAmount] is the sum of its lines,
    as it is for an order created without a [totalAmount] of its own. *)
Theorem billPreview_matches env orderClock clock now body st :
  noItems (ob_items body) = false ->
  ob_totalAmount body = None \/ ob_totalAmount body = Some 0 ->
  let order := newOrder orderClock body in
  Order.totalAmount order = sumItems (Order.items order)
  /\ exists bill,
       (generateBillForOrder env clock now order st).1 = Some bill
       /\ (Bill.subtotal bill, Bill.tax bill, Bill.service bill, Bill.total bill)
          = billPreview order.
Proof.
  intros Hitems Htotal order.
  assert (Hsum : Order.totalAmount order = sumItems (Order.items order)).
  { unfold order. simpl. by destruct Htotal as [-> | ->]. }
  split; [done|]. unfold generateBillForOrder.
  rewrite postBills_accepts;
    [|unfold order; simpl; by destruct (ob_items body) as [| |[|]]|by left].
  eexists. split; [reflexivity|]. unfold billPreview. rewrite Hsum. simpl.
  by destruct (decide (sumItems (itemsOf (ob_items body)) = 0)) as [->|].
Qed.

Lemma billPreview_matches_witness :
  billPreview (newOrder {| idTime := 7; createdTime := 8 |} {| ob_tableNumber := Some 1; ob_customerName := None;
                             ob_items := ItemsArray [line 120 2];
                             ob_totalAmount := None |})
  = (240, 12, 5, 257).
Proof.
  destruct (billPreview_matches defaultEnv {| idTime := 7; createdTime := 8 |}
              {| idTime := 20; createdTime := 21 |} 22
              {| ob_tableNumber := Some 1; ob_customerName := None;
                 ob_items := ItemsArray [line 120 2]; ob_totalAmount := None |}
              emptyStore eq_refl ltac:(by left)) as (_ & bill & Hb & <-).
  simpl in Hb. by injection Hb as <-.
Defined.

Section Serving.
Variables (env : Env) (st : Store) (o : Order.t).
Hypothesis fresh : Forall (fun o' => Order.id o' <> Order.id o) (orders st).

Lemma serving_getOrder bs : getOrder (Order.id o) (servingStore st o bs) = Json o.
Proof. unfold getOrder, servingStore. simpl. by rewrite list_find_snoc. Qed.

Lemma serving_patchOrder now s bs :
  s <> EmptyString ->
  (patchOrder now (Order.id o) (Some s) (servingStore st o bs)).2
  = servingStore st (Order.setStatus s now o) bs.
Proof.
  intros Hs. rewrite patchOrder_store.
  rewrite (patchOrder_orders _ _ _ _ (length (orders st)))
    by (unfold servingStore; simpl; by apply findIndex_snoc).
  simpl. rewrite bool_decide_eq_false_2, decide_False by done.
  unfold servingStore, withOrders. simpl. f_equal.
  rewrite alter_app_r_alt by done. by rewrite Nat.sub_diag.
Qed.

Lemma serving_generateBill clock now bs :
  Order.items o <> [] ->
  exists bill,
    (generateBillForOrder env clock now o (servingStore st o bs)).2
    = servingStore st (Order.setStatus "COMPLETED" now o) (bs ++ [bill])
    /\ Bill.items bill = Order.items o.
Proof.
  intros Hne. unfold generateBillForOrder.
  set (body := {| bb_tableNumber := Order.tableNumber o;
                  bb_customerName := Some (Order.customerName o);
                  bb_customerPhone := None;
                  bb_items := ItemsArray (Order.items o) |}).
  rewrite postBills_accepts; [|by destruct (Order.items o)|by left].
  exists (newBill env clock body). split; [|done].
  change (withBills (servingStore st o bs) (bills (servingStore st o bs) ++ [newBill env clock body]))
    with (servingStore st o (bs ++ [newBill env clock body])).
  by apply serving_patchOrder.
Qed.
End Serving.

(** X27. Served through the dashboard, a new order goes from [PENDING] to
    [PREPARING], to [READY] and, with the bill, to [COMPLETED]: one round
    per step, bills untouched until the third round, which stores one bill
    made of the items of the order; after that the dashboard has no action
    left for the order and a further round changes nothing. *)
Theorem dashboard_lifecycle env clock c1 t1 c2 t2 c3 t3 c4 t4 body st :
  noItems (ob_items body) = false ->
  Forall (fun o => Order.id o <> "ORD-" +:+ pretty (idTime clock)) (orders st) ->
  let id := "ORD-" +:+ pretty (idTime clock) in
  let s0 := (postOrders clock body st).2 in
  let s1 := dashboardRound env c1 t1 id s0 in
  let s2 := dashboardRound env c2 t2 id s1 in
  let s3 := dashboardRound env c3 t3 id s2 in
  statusOf id s0 = Some "PENDING"
  /\ statusOf id s1 = Some "PREPARING"
  /\ statusOf id s2 = Some "READY"
  /\ statusOf id s3 = Some "COMPLETED"
  /\ bills s0 = bills st /\ bills s1 = bills st /\ bills s2 = bills st
  /\ (exists bill, bills s3 = bills st ++ [bill]
                   /\ ItemsArray (Bill.items bill) = ob_items body)
  /\ dashboardRound env c4 t4 id s3 = s3.
Proof.
  intros Hitems Hfresh id s0 s1 s2 s3.
  set (o0 := newOrder clock body).
  set (o1 := Order.setStatus "PREPARING" t1 o0).
  set (o2 := Order.setStatus "READY" t2 o1).
  set (o3 := Order.setStatus "COMPLETED" t3 o2).
  assert (E0 : s0 = servingStore st o0 (bills st)).
  { unfold s0. rewrite postOrders_accepts by done. by destruct st. }
  assert (E1 : s1 = servingStore st o1 (bills st)).
  { unfold s1, dashboardRound. rewrite E0.
    rewrite (serving_getOrder st o0 Hfresh). simpl.
    by rewrite (serving_patchOrder st o0 Hfresh). }
  assert (E2 : s2 = servingStore st o2 (bills st)).
  { unfold s2, dashboardRound. rewrite E1.
    rewrite (serving_getOrder st o1 Hfresh). simpl.
    by rewrite (serving_patchOrder st o1 Hfresh). }
  assert (Hlines : Order.items o2 <> []).
  { simpl. by destruct (ob_items body) as [| |[|]]. }
  destruct (serving_generateBill env st o2 Hfresh c3 t3 (bills st) Hlines)
    as (bill & Hgen & Hbill).
  assert (E3 : s3 = servingStore st o3 (bills st ++ [bill])).
  { unfold s3, dashboardRound. rewrite E2.
    rewrite (serving_getOrder st o2 Hfresh). exact Hgen. }
  rewrite E0, E1, E2, E3. unfold statusOf, dashboardRound.
  rewrite (serving_getOrder st o0 Hfresh), (serving_getOrder st o1 Hfresh),
    (serving_getOrder st o2 Hfresh), (serving_getOrder st o3 Hfresh).
  repeat split; try done.
  exists bill. split; [done|]. rewrite Hbill. simpl. by destruct (ob_items body).
Qed.

Lemma dashboard_lifecycle_witness :
  statusOf "ORD-7"
    (dashboardRound defaultEnv {| idTime := 30; createdTime := 31 |} 32 "ORD-7"
       (dashboardRound defaultEnv {| idTime := 20; createdTime := 20 |} 20 "ORD-7"
          (dashboardRound defaultEnv {| idTime := 10; createdTime := 10 |} 10 "ORD-7"
             (postOrders {| idTime := 7; createdTime := 8 |}
                {| ob_tableNumber := Some 1; ob_customerName := None;
                   ob_items := ItemsArray [line 30 5];
                   ob_totalAmount := None |} emptyStore).2)))
  = Some "COMPLETED".
Proof.
  destruct (dashboard_lifecycle defaultEnv {| idTime := 7; createdTime := 8 |}
              {| idTime := 10; createdTime := 10 |} 10
              {| idTime := 20; createdTime := 20 |} 20
              {| idTime := 30; createdTime := 31 |} 32
              {| idTime := 40; createdTime := 40 |} 40
              {| ob_tableNumber := Some 1; ob_customerName := None;
                 ob_items := ItemsArray [line 30 5]; ob_totalAmount := None |}
              emptyStore eq_refl ltac:(constructor)) as (_ & _ & _ & H & _).
  exact H.
Defined.

(** ** Messaging services *)



(** X29. A WhatsApp send is counted exactly when it succeeds: a reply with
    [success: true] comes only from a module that is enabled and configured
    with credits left, after a response with [ok], and raises the count by
    one; any other send leaves the settings as they are. *)
Theorem whatsapp_send_counted outcome s :
  let r := (Whatsapp.sendWhatsappMessage outcome s).1 in
  let s' := (Whatsapp.sendWhatsappMessage outcome s).2 in
  (success r = true ->
   Whatsapp.enabled s = true /\ Whatsapp.apiKey s <> EmptyString
   /\ Whatsapp.phoneNumber s <> EmptyString
   /\ Whatsapp.used s < Whatsapp.credits s
   /\ (exists e m, outcome = Responded true e m)
   /\ Whatsapp.used s' = Whatsapp.used s + 1)
  /\ (success r = false -> s' = s).
Proof.
  unfold Whatsapp.sendWhatsappMessage.
  destruct (Whatsapp.enabled s); simpl; [|done].
  case_bool_decide; simpl; [done|]. case_bool_decide; simpl; [done|].
  destruct (Z.leb_spec (Whatsapp.credits s) (Whatsapp.used s)); simpl; [done|].
  destruct outcome as [[] e m|m]; simpl; split; try done.
  intros _. repeat split; try done. by exists e, m.
Qed.




